(** * OpenFlow Data + Docs: search-hit normalisation, local filtering and
      agent-answer extraction of [streamlit_app.py]

    The three helpers of the dashboard that transform data are embedded here
    as Rocq functions over a model of the Python values they receive:

    - [_extract_hit] / [run_search]   (lines 62-94)
    - [filter_hits_locally]           (lines 96-114)
    - [agent_answer]                  (lines 117-140)

    Python exceptions are explicit: a computation that may raise has type
    [result A].  The library calls the helpers make ([json.loads],
    [json.dumps], [str.lower], [str()], [date.fromisoformat]) and the
    Snowpark session are interfaces ([Json], [Text], [Session]); the theorems
    hold for every implementation of them. *)

From Stdlib Require Import ZArith String Ascii List Bool Lia DecimalString.
From Stdlib Require Import Floats.SpecFloat.
From stdpp Require Import base list strings.

Open Scope string_scope.
Open Scope list_scope.
Open Scope Z_scope.

Set Warnings "-register-all,-abstract-large-number".

(** ** Python values *)

(** The values a decoded JSON document is made of.  A [dict] keeps its
    insertion order; its keys are strings.  One [ascii] stands for one
    character of a Python [str]. *)
Inductive value : Type :=
| VNone
| VBool (b : bool)
| VInt (z : Z)
| VFloat (f : spec_float)
| VStr (s : string)
| VList (l : list value)
| VDict (d : list (string * value)).

Abbreviation dict := (list (string * value)).

(** [datetime.date]: ordered by year, then month, then day. *)
Record date : Type := Date { year : Z; month : Z; day : Z }.

Definition date_compare (a b : date) : comparison :=
  match year a ?= year b with
  | Eq => match month a ?= month b with
          | Eq => day a ?= day b
          | c => c
          end
  | c => c
  end.

(** [a < b] and [a <= b] on dates. *)
Definition date_ltb (a b : date) : bool :=
  match date_compare a b with Lt => true | _ => false end.

Definition date_leb (a b : date) : bool :=
  match date_compare a b with Gt => false | _ => true end.

(** ** Exceptions and the error monad *)

Inductive exn_class : Type :=
| JSONDecodeError
| AttributeError
| TypeError
| KeyError
| SnowparkSQLException
| OtherException.

(** An exception instance; [exn_msg] is what [str(e)] prints. *)
Record exn : Type := Exn { exn_kind : exn_class; exn_msg : string }.

Inductive result (A : Type) : Type :=
| Ok (a : A)
| Raise (e : exn).
Arguments Ok {A} a.
Arguments Raise {A} e.

#[global] Instance result_ret : MRet result := @Ok.
#[global] Instance result_bind : MBind result :=
  fun A B f r => match r with Ok a => f a | Raise e => Raise e end.

(** [try: body / except Exception as e: handler e]. *)
Definition try_except {A} (body : result A) (handler : exn -> result A) : result A :=
  match body with
  | Ok a => Ok a
  | Raise e => handler e
  end.

(** ** Built-in operations *)

Definition is_zero_float (f : spec_float) : bool :=
  match f with S754_zero _ => true | _ => false end.

(** Truth value of an object, as [if x], [not x], [x or y] test it. *)
Definition truthy (v : value) : bool :=
  match v with
  | VNone => false
  | VBool b => b
  | VInt z => negb (z =? 0)
  | VFloat f => negb (is_zero_float f)
  | VStr s => negb (String.eqb s "")
  | VList l => match l with [] => false | _ => true end
  | VDict d => match d with [] => false | _ => true end
  end.

(** [a or b]. *)
Definition py_or (a b : value) : value := if truthy a then a else b.

Definition type_name (v : value) : string :=
  match v with
  | VNone => "NoneType"
  | VBool _ => "bool"
  | VInt _ => "int"
  | VFloat _ => "float"
  | VStr _ => "str"
  | VList _ => "list"
  | VDict _ => "dict"
  end.

Definition no_attribute (v : value) (attr : string) : exn :=
  Exn AttributeError ("'" +:+ type_name v +:+ "' object has no attribute '" +:+ attr +:+ "'").

Definition not_iterable (v : value) : exn :=
  Exn TypeError ("'" +:+ type_name v +:+ "' object is not iterable").

(** Lookup of a key in a [dict]. *)
Fixpoint dict_lookup (k : string) (d : dict) : option value :=
  match d with
  | [] => None
  | (k', v) :: d' => if String.eqb k k' then Some v else dict_lookup k d'
  end.

(** [d.get(k)] on a dict: the value, or [None] when the key is absent. *)
Definition dict_get (d : dict) (k : string) : value :=
  match dict_lookup k d with
  | Some v => v
  | None => VNone
  end.

(** [v.get(k)] on any object: only a dict has the method. *)
Definition py_get (v : value) (k : string) : result value :=
  match v with
  | VDict d => Ok (dict_get d k)
  | _ => Raise (no_attribute v "get")
  end.

(** [d[k]] on a dict. *)
Definition dict_getitem (d : dict) (k : string) : result value :=
  match dict_lookup k d with
  | Some v => Ok v
  | None => Raise (Exn KeyError ("'" +:+ k +:+ "'"))
  end.

(** The elements a [for] loop or a comprehension draws from an object. *)
Definition py_iter (v : value) : result (list value) :=
  match v with
  | VList l => Ok l
  | VStr s => Ok (map (fun c => VStr (String c EmptyString)) (list_ascii_of_string s))
  | VDict d => Ok (map (fun kv => VStr (fst kv)) d)
  | _ => Raise (not_iterable v)
  end.

(** ** Library and session interfaces *)

(** The [json] module: [json.loads s] and [json.dumps v] (with the [indent]
    argument when given). *)
Class Json : Type := {
  json_loads : string -> result value;
  json_dumps : option nat -> value -> result string;
}.

(** String functions of the runtime: [s.lower()], [str(v)] on an object
    that is not a [str], and [date.fromisoformat s] ([None] when it raises). *)
Class Text : Type := {
  str_lower : string -> string;
  str_other : value -> string;
  date_fromisoformat : string -> option date;
}.

(** What holds of every Python runtime and the proofs rely on: lower-casing
    yields the empty string only from the empty string, and the empty string
    is not an ISO date. *)
Class TextLaws (T : Text) : Prop := {
  str_lower_empty : forall s, str_lower s = str_lower "" -> s = "";
  fromisoformat_empty : date_fromisoformat "" = None;
}.

(** [session.sql(sql, params=params).collect()]: the rows of the result, each
    row given by the value of the one column the statement selects. *)
Class Session : Type := {
  session_collect : string -> list value -> result (list value);
}.

(** ** The helpers of [streamlit_app.py] *)

Definition SEARCH_SERVICE : string := "ANALYTICS_FA.RAW.DOCS_SEARCH_FA".

(** [a or b] where [b] is an expression that is evaluated only when [a] is
    falsy. *)
Definition py_or_else (a : value) (b : result value) : result value :=
  if truthy a then Ok a else b.

(** [str(v)]. *)
Definition py_str `{Text} (v : value) : string :=
  match v with
  | VStr s => s
  | _ => str_other v
  end.

(** [v.lower()]: a method of [str] only. *)
Definition py_lower `{Text} (v : value) : result string :=
  match v with
  | VStr s => Ok (str_lower s)
  | _ => Raise (no_attribute v "lower")
  end.

(** *** Search helpers (lines 62-94) *)

(** [_extract_hit(hit)], lines 62-75. *)
Definition _extract_hit (hit : value) : result dict :=
  row ← (r ← py_get hit "row"; py_or_else r (py_or_else hit (Ok (VDict []))));
  scores ← (s ← py_get hit "@scores";
            py_or_else s (s' ← py_get hit "scores"; py_or_else s' (Ok (VDict []))));
  doc_id ← py_get row "DOC_ID";
  filename ← py_get row "FILENAME";
  relative_path ← py_get row "RELATIVE_PATH";
  person ← py_get row "PERSON";
  doc_type ← py_get row "DOC_TYPE";
  doc_date ← py_get row "DOC_DATE";
  score_sem ← py_get scores "cosine_similarity";
  score_text ← py_get scores "text_match";
  Ok [("DOC_ID", doc_id); ("FILENAME", filename); ("RELATIVE_PATH", relative_path);
      ("PERSON", person); ("DOC_TYPE", doc_type); ("DOC_DATE", doc_date);
      ("score_sem", score_sem); ("score_text", score_text)].

(** [[_extract_hit(h) for h in results]]: hits are built left to right and
    the first exception ends the comprehension. *)
Fixpoint extract_hits (results : list value) : result (list dict) :=
  match results with
  | [] => Ok []
  | h :: rest => r ← _extract_hit h; rs ← extract_hits rest; Ok (r :: rs)
  end.

(** Lines 93-94 of [run_search]: from the decoded payload to the hits. *)
Definition search_hits (data : value) : result (list dict) :=
  found ← py_get (py_or data (VDict [])) "results";
  results ← py_iter (py_or found (VList []));
  extract_hits results.

(** [data = json.loads(raw) if isinstance(raw, str) else raw]. *)
Definition decode `{Json} (raw : value) : result value :=
  match raw with
  | VStr s => json_loads s
  | _ => Ok raw
  end.

(** The [payload] and [sql] locals of [run_search], lines 82-87. *)
Definition search_payload (query : string) (limit : Z) : value :=
  VDict [("query", VStr query); ("limit", VInt limit);
         ("columns", VList [VStr "DOC_ID"; VStr "FILENAME"; VStr "RELATIVE_PATH";
                            VStr "PERSON"; VStr "DOC_TYPE"; VStr "DOC_DATE"])].

Definition search_sql : string :=
  "SELECT SNOWFLAKE.CORTEX.SEARCH_PREVIEW(?, ?) AS RESULT".

(** [run_search(query, limit, service_name)], lines 77-94. *)
Definition run_search `{Json, Session}
    (query : string) (limit : Z) (service_name : string) : result (list dict) :=
  body ← json_dumps None (search_payload query limit);
  r ← session_collect search_sql [VStr service_name; VStr body];
  match r with
  | [] => Ok []
  | raw :: _ => data ← decode raw; search_hits data
  end.

(** *** Local filter (lines 96-114) *)

Section Filter.
Context `{Text}.
Variables (person doc_type : option string) (d_from d_to : option date).

(** [to_date(s)], lines 98-101; the bare [except] turns every failure of
    [date.fromisoformat] into [None]. *)
Definition to_date (s : value) : option date :=
  if truthy s then date_fromisoformat (substring 0 10 (py_str s)) else None.

(** [crit and (r.get(key) or "").lower() != crit.lower()]. *)
Definition field_differs (crit : option string) (r : dict) (key : string) : result bool :=
  match crit with
  | None => Ok false
  | Some c =>
      if String.eqb c "" then Ok false
      else l ← py_lower (py_or (dict_get r key) (VStr ""));
           Ok (negb (String.eqb l (str_lower c)))
  end.

(** [bound and (not dd or dd < bound)] and its mirror image for [d_to]. *)
Definition before_from (dd : option date) : bool :=
  match d_from with
  | None => false
  | Some lo => match dd with None => true | Some d => date_ltb d lo end
  end.

Definition after_to (dd : option date) : bool :=
  match d_to with
  | None => false
  | Some hi => match dd with None => true | Some d => date_ltb hi d end
  end.

(** Lines 109-112: whether the date block reaches a [continue]. *)
Definition date_rejects (r : dict) : bool :=
  match d_from, d_to with
  | None, None => false
  | _, _ => let dd := to_date (dict_get r "DOC_DATE") in
            before_from dd || after_to dd
  end.

(** The [for] loop of lines 104-113 with [out] as its accumulator. *)
Fixpoint filter_loop (rows out : list dict) : result (list dict) :=
  match rows with
  | [] => Ok out
  | r :: rest =>
      skip_person ← field_differs person r "PERSON";
      if skip_person : bool then filter_loop rest out
      else
        skip_type ← field_differs doc_type r "DOC_TYPE";
        if skip_type : bool then filter_loop rest out
        else if date_rejects r then filter_loop rest out
        else filter_loop rest (out ++ [r])
  end.

(** [filter_hits_locally(rows, person, doc_type, d_from, d_to)]. *)
Definition filter_hits_locally (rows : list dict) : result (list dict) :=
  filter_loop rows [].
End Filter.

(** *** Agent helper (lines 117-140) *)

(** Lines 135-137, over the already reversed sequence. *)
Fixpoint scan_content (ms : list value) : result (option value) :=
  match ms with
  | [] => Ok None
  | VDict m :: rest =>
      if truthy (dict_get m "content")
      then c ← dict_getitem m "content"; Ok (Some c)
      else scan_content rest
  | _ :: rest => scan_content rest
  end.

(** Lines 133-137: the scan of the [messages] / [output] sequence. *)
Definition scan_turns (d : dict) : result (option value) :=
  match py_or (py_or (dict_get d "messages") (dict_get d "output")) (VList []) with
  | VList msgs => scan_content (rev msgs)
  | _ => Ok None
  end.

(** Lines 129-137: the answer found in the decoded payload, if any. *)
Definition find_answer (data : value) : result (option value) :=
  match data with
  | VDict d =>
      match dict_get d "message" with
      | VDict msg =>
          if truthy (dict_get msg "content")
          then c ← dict_getitem msg "content"; Ok (Some c)
          else scan_turns d
      | _ => scan_turns d
      end
  | _ => Ok None
  end.

(** Lines 128-138: decode the payload, return the answer found or the
    indented dump. *)
Definition extract_answer `{Json} (obj : value) : result value :=
  data ← decode obj;
  found ← find_answer data;
  match found with
  | Some c => Ok c
  | None => s ← json_dumps (Some 2%nat) data; Ok (VStr s)
  end.

Definition agent_sql : string :=
  "SELECT SNOWFLAKE.CORTEX.EXECUTE_AGENT(?, OBJECT_CONSTRUCT('input', ?)) AS R".

(** [agent_answer(prompt)], lines 117-140. *)
Definition agent_answer `{Json, Session} (prompt : string) : result value :=
  try_except
    (res ← session_collect agent_sql [VStr "FA_DOCS_AGENT"; VStr prompt];
     match res with
     | [] => Ok (VStr "Agent returned no result.")
     | obj :: _ => extract_answer obj
     end)
    (fun e => Ok (VStr ("Agent call failed: " +:+ exn_msg e))).

(** *** The search action of the second tab (lines 215-225) *)

(** What the action leaves on the page: the rows of [hits_df] and the text
    of [st.error], if any.  [q] is the stripped query. *)
Definition search_action `{Json, Text, Session}
    (q : string) (limit : Z) (p t : option string) (d1 d2 : option date)
    : list dict * option string :=
  match (rows ← run_search q limit SEARCH_SERVICE;
         filter_hits_locally p t d1 d2 rows) with
  | Ok rows => (rows, None)
  | Raise e => ([], Some ("Search failed: " +:+ exn_msg e))
  end.

(** ** A reference runtime

    An implementation of the three interfaces, used to run the helpers on
    concrete payloads.  It follows CPython ([json/decoder.py],
    [json/encoder.py], [unicodeobject.c], [_pydatetime.py]) on text whose
    characters are below U+0100 and on documents without floating-point
    literals; a finite non-zero float is outside what it renders or reads. *)
Module Reference.
Local Open Scope nat_scope.

Definition code (c : ascii) : nat := nat_of_ascii c.
Definition chr (n : nat) : string := String (ascii_of_nat n) "".
Definition between (lo hi n : nat) : bool := (lo <=? n) && (n <=? hi).
Definition dec (n : nat) : string := NilZero.string_of_uint (Nat.to_uint n).
Definition dec_int (z : Z) : string := NilZero.string_of_int (Z.to_int z).

Definition hex_digit (n : nat) : string :=
  chr (if n <? 10 then 48 + n else 87 + n).
Definition hex2 (n : nat) : string := hex_digit (n / 16) +:+ hex_digit (n mod 16).

(** *** [str.lower] *)

Definition lower_char (c : ascii) : ascii :=
  let n := code c in
  if between 65 90 n || (between 192 222 n && negb (n =? 215))
  then ascii_of_nat (n + 32) else c.

Fixpoint lower (s : string) : string :=
  match s with
  | EmptyString => EmptyString
  | String c s' => String (lower_char c) (lower s')
  end.

(** *** [date.fromisoformat], format [YYYY-MM-DD] *)

Definition digit (c : ascii) : option nat :=
  let n := code c in if between 48 57 n then Some (n - 48) else None.

Fixpoint digits (cs : list ascii) (acc : nat) : option nat :=
  match cs with
  | [] => Some acc
  | c :: cs' => match digit c with
                | Some d => digits cs' (10 * acc + d)
                | None => None
                end
  end.

Definition is_leap (y : nat) : bool :=
  (y mod 4 =? 0) && (negb (y mod 100 =? 0) || (y mod 400 =? 0)).

Definition days_in_month (y m : nat) : nat :=
  match m with
  | 2 => if is_leap y then 29 else 28
  | 4 | 6 | 9 | 11 => 30
  | _ => 31
  end.

Definition fromisoformat (s : string) : option date :=
  match list_ascii_of_string s with
  | [y1; y2; y3; y4; s1; m1; m2; s2; d1; d2] =>
      if Ascii.eqb s1 "-" && Ascii.eqb s2 "-" then
        match digits [y1; y2; y3; y4] 0, digits [m1; m2] 0, digits [d1; d2] 0 with
        | Some y, Some m, Some d =>
            if between 1 9999 y && between 1 12 m && between 1 (days_in_month y m) d
            then Some (Date (Z.of_nat y) (Z.of_nat m) (Z.of_nat d))
            else None
        | _, _, _ => None
        end
      else None
  | _ => None
  end.

(** *** [repr] and [str] *)

Definition float_text (f : spec_float) : string :=
  match f with
  | S754_zero false => "0.0"
  | S754_zero true => "-0.0"
  | S754_infinity false => "inf"
  | S754_infinity true => "-inf"
  | S754_nan => "nan"
  | S754_finite _ _ _ => "<float>"
  end.

Fixpoint has_char (q : ascii) (s : string) : bool :=
  match s with
  | EmptyString => false
  | String c s' => Ascii.eqb c q || has_char q s'
  end.

Definition dquote : ascii := ascii_of_nat 34.
Definition squote : ascii := ascii_of_nat 39.
Definition backslash : string := chr 92.

Definition repr_char (q : ascii) (c : ascii) : string :=
  let n := code c in
  if Ascii.eqb c q || (n =? 92) then backslash +:+ String c ""
  else if n =? 9 then backslash +:+ "t"
  else if n =? 10 then backslash +:+ "n"
  else if n =? 13 then backslash +:+ "r"
  else if (n <? 32) || between 127 160 n || (n =? 173) then backslash +:+ "x" +:+ hex2 n
  else String c "".

Fixpoint repr_chars (q : ascii) (s : string) : string :=
  match s with
  | EmptyString => EmptyString
  | String c s' => repr_char q c +:+ repr_chars q s'
  end.

Definition repr_str (s : string) : string :=
  let q := if has_char squote s && negb (has_char dquote s) then dquote else squote in
  String q "" +:+ repr_chars q s +:+ String q "".

Fixpoint join (sep : string) (parts : list string) : string :=
  match parts with
  | [] => ""
  | [x] => x
  | x :: rest => x +:+ sep +:+ join sep rest
  end.

Fixpoint repr (v : value) : string :=
  match v with
  | VNone => "None"
  | VBool true => "True"
  | VBool false => "False"
  | VInt z => dec_int z
  | VFloat f => float_text f
  | VStr s => repr_str s
  | VList l => "[" +:+ join ", " (map repr l) +:+ "]"
  | VDict d =>
      "{" +:+ join ", " (map (fun kv => repr_str (fst kv) +:+ ": " +:+ repr (snd kv)) d) +:+ "}"
  end.

#[export] Instance text : Text :=
  {| str_lower := lower; str_other := repr; date_fromisoformat := fromisoformat |}.

(** *** [json.dumps] (with [ensure_ascii], the default) *)

Definition newline : string := chr 10.

Definition json_char (c : ascii) : string :=
  let n := code c in
  if (n =? 34) || (n =? 92) then backslash +:+ String c ""
  else if n =? 8 then backslash +:+ "b"
  else if n =? 9 then backslash +:+ "t"
  else if n =? 10 then backslash +:+ "n"
  else if n =? 12 then backslash +:+ "f"
  else if n =? 13 then backslash +:+ "r"
  else if between 32 126 n then String c ""
  else backslash +:+ "u00" +:+ hex2 n.

Fixpoint json_chars (s : string) : string :=
  match s with
  | EmptyString => EmptyString
  | String c s' => json_char c +:+ json_chars s'
  end.

Definition json_str (s : string) : string :=
  String dquote "" +:+ json_chars s +:+ String dquote "".

Definition json_float (f : spec_float) : result string :=
  match f with
  | S754_zero false => Ok "0.0"
  | S754_zero true => Ok "-0.0"
  | S754_infinity false => Ok "Infinity"
  | S754_infinity true => Ok "-Infinity"
  | S754_nan => Ok "NaN"
  | S754_finite _ _ _ => Raise (Exn OtherException "float outside the reference encoder")
  end.

Fixpoint spaces (n : nat) : string :=
  match n with O => "" | S n' => " " +:+ spaces n' end.

(** A non-empty container: its items separated and, with [indent], laid
    out one per line at depth [level + 1]. *)
Definition enclose (open close : string) (indent : option nat) (level : nat)
    (items : list string) : string :=
  match indent with
  | None => open +:+ join ", " items +:+ close
  | Some w =>
      let inner := newline +:+ spaces (w * S level) in
      open +:+ inner +:+ join ("," +:+ inner) items
           +:+ newline +:+ spaces (w * level) +:+ close
  end.

Fixpoint encode (indent : option nat) (level : nat) (v : value) {struct v} : result string :=
  match v with
  | VNone => Ok "null"
  | VBool true => Ok "true"
  | VBool false => Ok "false"
  | VInt z => Ok (dec_int z)
  | VFloat f => json_float f
  | VStr s => Ok (json_str s)
  | VList [] => Ok "[]"
  | VList l =>
      items ← (fix each (l : list value) : result (list string) :=
                 match l with
                 | [] => Ok []
                 | x :: rest => s ← encode indent (S level) x; ss ← each rest; Ok (s :: ss)
                 end) l;
      Ok (enclose "[" "]" indent level items)
  | VDict [] => Ok "{}"
  | VDict d =>
      items ← (fix each (d : dict) : result (list string) :=
                 match d with
                 | [] => Ok []
                 | (k, x) :: rest =>
                     s ← encode indent (S level) x; ss ← each rest;
                     Ok ((json_str k +:+ ": " +:+ s) :: ss)
                 end) d;
      Ok (enclose "{" "}" indent level items)
  end.

Definition dumps (indent : option nat) (v : value) : result string :=
  encode indent 0 v.

(** *** [json.loads] *)

(** A failure of the scanner: a syntax error at a character offset, or a
    construct this decoder does not read. *)
Inductive scan_error : Type :=
| Syntax (msg : string) (pos : nat)
| Unsupported (what : string).

Inductive scanned (A : Type) : Type :=
| Scanned (a : A)
| Failed (e : scan_error).
Arguments Scanned {A} a.
Arguments Failed {A} e.

#[local] Instance scanned_bind : MBind scanned :=
  fun A B f r => match r with Scanned a => f a | Failed e => Failed e end.

Definition is_ws (c : ascii) : bool :=
  let n := code c in (n =? 32) || (n =? 9) || (n =? 10) || (n =? 13).

Fixpoint skip_ws (cs : list ascii) (pos : nat) : list ascii * nat :=
  match cs with
  | c :: cs' => if is_ws c then skip_ws cs' (S pos) else (cs, pos)
  | [] => ([], pos)
  end.

Fixpoint strip_prefix (lit cs : list ascii) : option (list ascii) :=
  match lit, cs with
  | [], _ => Some cs
  | a :: lit', c :: cs' => if Ascii.eqb a c then strip_prefix lit' cs' else None
  | _ :: _, [] => None
  end.

Definition literal (lit : string) (cs : list ascii) : option (list ascii) :=
  strip_prefix (list_ascii_of_string lit) cs.

(** The digits at the head of the input, as a number, with their count. *)
Fixpoint take_digits (cs : list ascii) (acc : Z) (n : nat) : Z * nat * list ascii :=
  match cs with
  | c :: cs' => match digit c with
                | Some d => take_digits cs' (10 * acc + Z.of_nat d)%Z (S n)
                | None => (acc, n, cs)
                end
  | [] => (acc, n, [])
  end.

Definition starts_with_digit (cs : list ascii) : bool :=
  match cs with
  | c :: _ => match digit c with Some _ => true | None => false end
  | [] => false
  end.

(** Whether a fraction or an exponent follows an integer part. *)
Definition float_tail (cs : list ascii) : bool :=
  match cs with
  | c :: r =>
      if Ascii.eqb c "." then starts_with_digit r
      else if Ascii.eqb c "e" || Ascii.eqb c "E" then
        match r with
        | g :: r' => if Ascii.eqb g "+" || Ascii.eqb g "-" then starts_with_digit r'
                     else starts_with_digit r
        | [] => false
        end
      else false
  | [] => false
  end.

(** An optional sign, then [0] or a digit string without leading zero:
    the integer, what follows it and its length. *)
Definition scan_int (cs : list ascii) : option (Z * list ascii * nat) :=
  let '(neg, body, k) :=
    match cs with
    | c :: r => if Ascii.eqb c "-" then (true, r, 1) else (false, cs, 0)
    | [] => (false, cs, 0)
    end in
  match body with
  | c :: r =>
      match digit c with
      | Some 0 => Some (0%Z, r, k + 1)
      | Some _ => let '(z, n, rest) := take_digits body 0%Z 0 in
                  Some (if neg : bool then (- z)%Z else z, rest, k + n)
      | None => None
      end
  | [] => None
  end.

Definition hex_value (c : ascii) : option nat :=
  let n := code c in
  if between 48 57 n then Some (n - 48)
  else if between 97 102 n then Some (n - 87)
  else if between 65 70 n then Some (n - 55)
  else None.

Definition simple_escape (c : ascii) : option ascii :=
  let n := code c in
  if (n =? 34) || (n =? 92) || (n =? 47) then Some c
  else if n =? 98 then Some (ascii_of_nat 8)
  else if n =? 102 then Some (ascii_of_nat 12)
  else if n =? 110 then Some (ascii_of_nat 10)
  else if n =? 114 then Some (ascii_of_nat 13)
  else if n =? 116 then Some (ascii_of_nat 9)
  else None.

(** The body of a string literal; [pos] is the offset of [cs], [begin] that
    of the opening quote, [acc] the characters read so far, last first. *)
Fixpoint scan_string (cs : list ascii) (pos begin : nat) (acc : list ascii)
    : scanned (string * list ascii * nat) :=
  match cs with
  | [] => Failed (Syntax "Unterminated string starting at" begin)
  | c :: r =>
      if code c =? 34 then Scanned (string_of_list_ascii (rev acc), r, S pos)
      else if code c =? 92 then
        match r with
        | [] => Failed (Syntax "Unterminated string starting at" begin)
        | e :: r' =>
            match simple_escape e with
            | Some x => scan_string r' (pos + 2) begin (x :: acc)
            | None =>
                if Ascii.eqb e "u" then
                  match r' with
                  | h1 :: h2 :: h3 :: h4 :: r'' =>
                      match r'', hex_value h1, hex_value h2, hex_value h3, hex_value h4 with
                      | _ :: _, Some a, Some b, Some c', Some d =>
                          let n := ((a * 16 + b) * 16 + c') * 16 + d in
                          if n <? 256 then scan_string r'' (pos + 6) begin (ascii_of_nat n :: acc)
                          else Failed (Unsupported "character above U+00FF")
                      | _, _, _, _, _ => Failed (Syntax ("Invalid " +:+ backslash +:+ "uXXXX escape") (S pos))
                      end
                  | _ => Failed (Syntax ("Invalid " +:+ backslash +:+ "uXXXX escape") (S pos))
                  end
                else Failed (Syntax ("Invalid " +:+ backslash +:+ "escape") pos)
            end
        end
      else if code c <? 32 then Failed (Syntax "Invalid control character at" pos)
      else scan_string r (S pos) begin (c :: acc)
  end.

(** [d[k] = v] while the pairs of an object are collected. *)
Fixpoint dict_set (d : dict) (k : string) (v : value) : dict :=
  match d with
  | [] => [(k, v)]
  | (k', v') :: d' => if String.eqb k k' then (k', v) :: d' else (k', v') :: dict_set d' k v
  end.

Definition expecting_value (pos : nat) : scan_error := Syntax "Expecting value" pos.

(** A scalar that is not a string, at the head of [cs]. *)
Definition scan_scalar (cs : list ascii) (pos : nat) : scanned (value * list ascii * nat) :=
  match literal "null" cs, literal "true" cs, literal "false" cs with
  | Some r, _, _ => Scanned (VNone, r, pos + 4)
  | _, Some r, _ => Scanned (VBool true, r, pos + 4)
  | _, _, Some r => Scanned (VBool false, r, pos + 5)
  | None, None, None =>
      match scan_int cs with
      | Some (z, r, n) =>
          if float_tail r then Failed (Unsupported "floating-point literal")
          else Scanned (VInt z, r, pos + n)
      | None =>
          match literal "NaN" cs, literal "Infinity" cs, literal "-Infinity" cs with
          | Some r, _, _ => Scanned (VFloat S754_nan, r, pos + 3)
          | _, Some r, _ => Scanned (VFloat (S754_infinity false), r, pos + 8)
          | _, _, Some r => Scanned (VFloat (S754_infinity true), r, pos + 9)
          | None, None, None => Failed (expecting_value pos)
          end
      end
  end.

(** [scan_once]: the value at the head of [cs]; [scan_items] and
    [scan_members] read the rest of an array and of an object. *)
Fixpoint scan_once (fuel : nat) (cs : list ascii) (pos : nat) {struct fuel}
    : scanned (value * list ascii * nat) :=
  match fuel with
  | O => Failed (Unsupported "nesting")
  | S fuel' =>
      match cs with
      | [] => Failed (expecting_value pos)
      | c :: r =>
          if code c =? 34 then
            '(s, r', p') ← scan_string r (S pos) pos []; Scanned (VStr s, r', p')
          else if Ascii.eqb c "{" then
            let '(r1, p1) := skip_ws r (S pos) in
            match r1 with
            | c1 :: r2 => if Ascii.eqb c1 "}" then Scanned (VDict [], r2, S p1)
                          else scan_members fuel' r1 p1 []
            | [] => scan_members fuel' r1 p1 []
            end
          else if Ascii.eqb c "[" then
            let '(r1, p1) := skip_ws r (S pos) in
            match r1 with
            | c1 :: r2 => if Ascii.eqb c1 "]" then Scanned (VList [], r2, S p1)
                          else scan_items fuel' r1 p1 []
            | [] => scan_items fuel' r1 p1 []
            end
          else scan_scalar cs pos
      end
  end
with scan_items (fuel : nat) (cs : list ascii) (pos : nat) (acc : list value) {struct fuel}
    : scanned (value * list ascii * nat) :=
  match fuel with
  | O => Failed (Unsupported "nesting")
  | S fuel' =>
      '(v, r, p) ← scan_once fuel' cs pos;
      let '(r1, p1) := skip_ws r p in
      match r1 with
      | c :: r2 =>
          if Ascii.eqb c "]" then Scanned (VList (rev (v :: acc)), r2, S p1)
          else if Ascii.eqb c "," then
            let '(r3, p3) := skip_ws r2 (S p1) in scan_items fuel' r3 p3 (v :: acc)
          else Failed (Syntax "Expecting ',' delimiter" p1)
      | [] => Failed (Syntax "Expecting ',' delimiter" p1)
      end
  end
with scan_members (fuel : nat) (cs : list ascii) (pos : nat) (acc : dict) {struct fuel}
    : scanned (value * list ascii * nat) :=
  match fuel with
  | O => Failed (Unsupported "nesting")
  | S fuel' =>
      match cs with
      | q :: r =>
          if code q =? 34 then
            '(k, r1, p1) ← scan_string r (S pos) pos [];
            let '(r2, p2) := skip_ws r1 p1 in
            match r2 with
            | c :: r3 =>
                if Ascii.eqb c ":" then
                  let '(r4, p4) := skip_ws r3 (S p2) in
                  '(v, r5, p5) ← scan_once fuel' r4 p4;
                  let '(r6, p6) := skip_ws r5 p5 in
                  match r6 with
                  | c' :: r7 =>
                      if Ascii.eqb c' "}" then Scanned (VDict (dict_set acc k v), r7, S p6)
                      else if Ascii.eqb c' "," then
                        let '(r8, p8) := skip_ws r7 (S p6) in
                        scan_members fuel' r8 p8 (dict_set acc k v)
                      else Failed (Syntax "Expecting ',' delimiter" p6)
                  | [] => Failed (Syntax "Expecting ',' delimiter" p6)
                  end
                else Failed (Syntax "Expecting ':' delimiter" p2)
            | [] => Failed (Syntax "Expecting ':' delimiter" p2)
            end
          else Failed (Syntax "Expecting property name enclosed in double quotes" pos)
      | [] => Failed (Syntax "Expecting property name enclosed in double quotes" pos)
      end
  end.

Definition scan_document (s : string) : scanned value :=
  let cs := list_ascii_of_string s in
  let '(r0, p0) := skip_ws cs 0 in
  '(v, r, p) ← scan_once (2 + length cs) r0 p0;
  let '(r1, p1) := skip_ws r p in
  match r1 with
  | [] => Scanned v
  | _ :: _ => Failed (Syntax "Extra data" p1)
  end.

(** Line and column (both from 1) of the character at offset [pos]. *)
Fixpoint line_col (cs : list ascii) (pos line col : nat) : nat * nat :=
  match pos, cs with
  | S pos', c :: cs' =>
      if code c =? 10 then line_col cs' pos' (S line) 1 else line_col cs' pos' line (S col)
  | _, _ => (line, col)
  end.

Definition loads (s : string) : result value :=
  match scan_document s with
  | Scanned v => Ok v
  | Failed (Syntax msg pos) =>
      let '(line, col) := line_col (list_ascii_of_string s) pos 1 1 in
      Raise (Exn JSONDecodeError
               (msg +:+ ": line " +:+ dec line +:+ " column " +:+ dec col
                    +:+ " (char " +:+ dec pos +:+ ")"))
  | Failed (Unsupported what) =>
      Raise (Exn OtherException ("outside the reference decoder: " +:+ what))
  end.

#[export] Instance json : Json := {| json_loads := loads; json_dumps := dumps |}.

(** A session whose every statement yields [reply]. *)
Definition session (reply : result (list value)) : Session :=
  {| session_collect := fun _ _ => reply |}.

(** JSON text written with apostrophes where the document has quotes. *)
Fixpoint quoted (s : string) : string :=
  match s with
  | EmptyString => EmptyString
  | String c s' => String (if Ascii.eqb c squote then dquote else c) (quoted s')
  end.
End Reference.

(** ** What the specification says, as definitions of its own

    The definitions below follow the wording of the specification (or of
    the wording as amended); the theorems compare them with the helpers. *)

(** *** Search hits *)

(** Lines 65-75 on their own: the record read from a row object and a scores
    object. *)
Definition read_hit (row scores : value) : result dict :=
  doc_id ← py_get row "DOC_ID";
  filename ← py_get row "FILENAME";
  relative_path ← py_get row "RELATIVE_PATH";
  person ← py_get row "PERSON";
  doc_type ← py_get row "DOC_TYPE";
  doc_date ← py_get row "DOC_DATE";
  score_sem ← py_get scores "cosine_similarity";
  score_text ← py_get scores "text_match";
  Ok [("DOC_ID", doc_id); ("FILENAME", filename); ("RELATIVE_PATH", relative_path);
      ("PERSON", person); ("DOC_TYPE", doc_type); ("DOC_DATE", doc_date);
      ("score_sem", score_sem); ("score_text", score_text)].

Definition HIT_KEYS : list string :=
  ["DOC_ID"; "FILENAME"; "RELATIVE_PATH"; "PERSON"; "DOC_TYPE"; "DOC_DATE";
   "score_sem"; "score_text"].

(** The row object: [element.row] when that value is truthy (present, not
    null, not empty), else the element itself. *)
Definition row_source (d : dict) : value :=
  if truthy (dict_get d "row") then dict_get d "row" else VDict d.

(** The scores object: [@scores] when truthy, else [scores] when truthy, else
    an empty object. *)
Definition scores_source (d : dict) : value :=
  if truthy (dict_get d "@scores") then dict_get d "@scores"
  else if truthy (dict_get d "scores") then dict_get d "scores"
  else VDict [].

(** The same two choices decided by the presence of the key alone. *)
Definition row_source_if_present (d : dict) : value :=
  match dict_lookup "row" d with
  | Some r => r
  | None => VDict d
  end.

Definition scores_source_if_present (d : dict) : value :=
  match dict_lookup "@scores" d with
  | Some s => s
  | None => match dict_lookup "scores" d with
            | Some s => s
            | None => VDict []
            end
  end.

Definition is_dict (v : value) : bool :=
  match v with VDict _ => true | _ => false end.

(** An element the normaliser can read: an object whose row and scores
    objects are objects. *)
Definition hit_shaped (h : value) : bool :=
  match h with
  | VDict d => is_dict (row_source d) && is_dict (scores_source d)
  | _ => false
  end.

(** *** Local filter *)

Definition text_or_none (v : value) : bool :=
  match v with VNone | VStr _ => true | _ => false end.

(** A hit of the data model: [PERSON], [DOC_TYPE] and [DOC_DATE] are strings
    or null (or absent). *)
Definition typed_hit (r : dict) : bool :=
  text_or_none (dict_get r "PERSON") && text_or_none (dict_get r "DOC_TYPE")
  && text_or_none (dict_get r "DOC_DATE").

Section FilterSpec.
Context `{Text}.

(** Case-insensitive equality of two strings. *)
Definition same_text (a b : string) : bool :=
  String.eqb (str_lower a) (str_lower b).

(** An exact-match criterion on a field; an absent or null field fails. *)
Definition field_matches (crit : string) (v : value) : bool :=
  match v with
  | VStr s => same_text s crit
  | _ => false
  end.

Definition criterion_passes (crit : option string) (r : dict) (key : string) : bool :=
  match crit with
  | None => true
  | Some c => field_matches c (dict_get r key)
  end.

(** The date of a hit: its first ten characters read as an ISO date. *)
Definition hit_date (r : dict) : option date :=
  match dict_get r "DOC_DATE" with
  | VStr s => date_fromisoformat (substring 0 10 s)
  | _ => None
  end.

(** The inclusive date range; not looked at when both bounds are inactive. *)
Definition date_passes (lo hi : option date) (r : dict) : bool :=
  match lo, hi with
  | None, None => true
  | _, _ =>
      match hit_date r with
      | None => false
      | Some d =>
          match lo with Some l => date_leb l d | None => true end
          && match hi with Some h => date_leb d h | None => true end
      end
  end.

(** A hit survives iff every active criterion passes; [active] says which
    text criteria are. *)
Definition survives (active : option string -> option string)
    (person doc_type : option string) (lo hi : option date) (r : dict) : bool :=
  criterion_passes (active person) r "PERSON"
  && criterion_passes (active doc_type) r "DOC_TYPE"
  && date_passes lo hi r.

(** Active as the claim words it: every criterion that is not [None]. *)
Definition active_if_not_none (c : option string) : option string := c.

(** Active as the [if person and ...] guard has it: not [None] and not
    the empty string. *)
Definition active_if_truthy (c : option string) : option string :=
  match c with
  | Some s => if String.eqb s "" then None else Some s
  | None => None
  end.
End FilterSpec.

(** *** Agent answer *)

(** The non-empty [content] of an object. *)
Definition nonempty_content (v : value) : option value :=
  match v with
  | VDict m =>
      match dict_lookup "content" m with
      | Some c => if truthy c then Some c else None
      | None => None
      end
  | _ => None
  end.

(** Scanning from the end toward the start, the first non-empty [content]:
    that of the last element that has one. *)
Definition last_content (turns : list value) : option value :=
  last (omap nonempty_content turns).

(** The candidate sequence: [messages] when truthy, else [output] when
    truthy, else an empty list. *)
Definition candidates (d : dict) : value :=
  if truthy (dict_get d "messages") then dict_get d "messages"
  else if truthy (dict_get d "output") then dict_get d "output"
  else VList [].

(** The candidate sequence decided by the presence of [messages] alone. *)
Definition candidates_if_present (d : dict) : value :=
  match dict_lookup "messages" d with
  | Some m => m
  | None => match dict_lookup "output" d with
            | Some o => o
            | None => VList []
            end
  end.

(** Rules 4 and 5 of the extractor for a given choice of candidates. *)
Definition answer_with (choose : dict -> value) (d : dict) : option value :=
  match nonempty_content (dict_get d "message") with
  | Some c => Some c
  | None => match choose d with
            | VList turns => last_content turns
            | _ => None
            end
  end.

Definition is_str (v : value) : bool :=
  match v with VStr _ => true | _ => false end.

(** ** The other helpers and the tab actions of [streamlit_app.py] *)

Definition DOCS_STAGE : string := "RAW_DOCS_STAGE".
Definition PREVIEW_SECONDS : Z := 3600.

(** [session.sql(sql, params=params).collect()] with each [Row] given by its
    [as_dict()]: the columns in order with their values. *)
Class RowSession : Type := {
  session_rows : string -> list value -> result (list dict);
}.

(** [s.strip()]. *)
Class Strip : Type := {
  str_strip : string -> string;
}.

(** [StopIteration()], what [next] raises on an exhausted iterator; it prints
    as the empty string. *)
Definition stop_iteration : exn := Exn OtherException "".

(** [sql_scalar(sql, params)], lines 26-32. *)
Definition sql_scalar `{RowSession} (sql : string) (params : list value) : result value :=
  rows ← session_rows sql params;
  match rows with
  | [] => Ok VNone
  | row :: _ =>
      match row with
      | [] => Raise stop_iteration
      | (_, v) :: _ => Ok v
      end
  end.

(** [parse_variant_json(v)], lines 34-47. *)
Definition parse_variant_json `{Json, Text} (v : value) : result value :=
  match v with
  | VNone => Ok (VDict [])
  | VStr s => try_except (json_loads s) (fun _ => Ok (VDict [("raw", VStr s)]))
  | _ => try_except (_ ← json_dumps None v; Ok v)
                    (fun _ => Ok (VDict [("raw", VStr (py_str v))]))
  end.

Definition presign_sql : string :=
  "SELECT GET_PRESIGNED_URL('@" +:+ DOCS_STAGE +:+ "', ?, ?) AS URL".

(** [get_presigned_url(path, seconds)], lines 49-59: the value returned and
    the text of [st.warning], if any. *)
Definition get_presigned_url `{RowSession} (path : string) (seconds : Z)
    : result (value * option string) :=
  try_except
    (url ← sql_scalar presign_sql [VStr path; VInt seconds]; Ok (url, None))
    (fun e => Ok (VNone, Some ("Could not create presigned URL for '" +:+ path
                                 +:+ "': " +:+ exn_msg e))).

(** What an action puts on the page: [st.warning], [st.error], [st.info],
    [st.dataframe] (the columns and the rows) and [st.write]. *)
Inductive ui : Type :=
| Warning (text : string)
| Error (text : string)
| Info (text : string)
| Table (columns : list string) (rows : list dict)
| Written (v : value).

(** [not s or not s.strip()]. *)
Definition blank `{Strip} (s : string) : bool :=
  String.eqb s "" || String.eqb (str_strip s) "".

(** Lines 210-211: [None if sel in (None, "", "(any)") else sel]. *)
Definition selection (sel : option string) : option string :=
  match sel with
  | None => None
  | Some s => if String.eqb s "" || String.eqb s "(any)" then None else Some s
  end.

(** The ask button of the third tab, lines 257-263. *)
Definition ask_tab `{Json, Session, Strip} (user_q : string) : result (list ui) :=
  if blank user_q then Ok [Warning "Please enter a question."]
  else ans ← agent_answer (str_strip user_q); Ok [Written ans].

(** *** The verdict of the filter loop on one row *)

(** Lines 105-113 for one row: whether the row reaches [out.append]. *)
Definition row_verdict `{Text} (person doc_type : option string) (d_from d_to : option date)
    (r : dict) : result bool :=
  skip_person ← field_differs person r "PERSON";
  if skip_person : bool then Ok false
  else
    skip_type ← field_differs doc_type r "DOC_TYPE";
    if skip_type : bool then Ok false
    else Ok (negb (date_rejects d_from d_to r)).

(** [verdicts v rows kept]: every row of [rows] gets a verdict from [v], and
    [kept] are the rows whose verdict is to keep, in order. *)
Inductive verdicts (v : dict -> result bool) : list dict -> list dict -> Prop :=
| verdicts_nil : verdicts v [] []
| verdicts_keep r rows kept :
    v r = Ok true -> verdicts v rows kept -> verdicts v (r :: rows) (r :: kept)
| verdicts_drop r rows kept :
    v r = Ok false -> verdicts v rows kept -> verdicts v (r :: rows) kept.

(** The record [_extract_hit] builds, with its scores cleared. *)
Definition without_scores (out : dict) : dict :=
  firstn 6 out ++ [("score_sem", VNone); ("score_text", VNone)].

(** *** Reference runtime, continued *)
Module ReferenceUI.
Local Open Scope nat_scope.

(** [str.isspace] on a character below U+0100. *)
Definition is_space (c : ascii) : bool :=
  let n := nat_of_ascii c in
  ((9 <=? n) && (n <=? 13)) || ((28 <=? n) && (n <=? 32)) || (n =? 133) || (n =? 160).

Fixpoint lstrip (cs : list ascii) : list ascii :=
  match cs with
  | c :: cs' => if is_space c then lstrip cs' else cs
  | [] => []
  end.

Definition strip (s : string) : string :=
  string_of_list_ascii (rev (lstrip (rev (lstrip (list_ascii_of_string s))))).

#[export] Instance text_strip : Strip := {| str_strip := strip |}.

(** A session whose every statement yields the rows [reply]. *)
Definition rows (reply : result (list dict)) : RowSession :=
  {| session_rows := fun _ _ => reply |}.
End ReferenceUI.

(** * Properties *)

(** ** The error monad *)

Lemma bind_Ok {A B} (a : A) (f : A -> result B) : (Ok a ≫= f) = f a.
Proof. reflexivity. Qed.

Lemma bind_Raise {A B} (e : exn) (f : A -> result B) : (Raise e ≫= f) = Raise e.
Proof. reflexivity. Qed.

Lemma bind_Ok_inv {A B} (r : result A) (f : A -> result B) (b : B) :
  (r ≫= f) = Ok b -> exists a, r = Ok a /\ f a = Ok b.
Proof. destruct r as [a|e]; simpl; [eauto | discriminate]. Qed.

(** Splits a hypothesis [x ← r; k = Ok b] into [r = Ok a] and [k a = Ok b]. *)
Ltac bind_inv H :=
  let a := fresh "a" in
  let Ha := fresh "Ha" in
  apply bind_Ok_inv in H; destruct H as (a & Ha & H).

(** ** Built-ins *)

Lemma py_get_dict (d : dict) (k : string) : py_get (VDict d) k = Ok (dict_get d k).
Proof. reflexivity. Qed.

Lemma is_dict_true (v : value) : is_dict v = true -> exists d, v = VDict d.
Proof. destruct v; simpl; try discriminate. eauto. Qed.

Lemma truthy_empty_dict (d : dict) : truthy (VDict d) = false -> d = [].
Proof. destruct d; simpl; [reflexivity | discriminate]. Qed.

(** A truthy key is a present key. *)
Lemma truthy_dict_get (d : dict) (k : string) :
  truthy (dict_get d k) = true -> dict_lookup k d = Some (dict_get d k).
Proof. unfold dict_get. destruct (dict_lookup k d); simpl; [reflexivity | discriminate]. Qed.

(** ** Search hits *)

(** The row and scores objects [_extract_hit] settles on. *)
Lemma extract_hit_sources (d : dict) :
  _extract_hit (VDict d) = read_hit (row_source d) (scores_source d).
Proof.
  unfold _extract_hit, read_hit, row_source, scores_source, py_or_else.
  rewrite !py_get_dict, !bind_Ok.
  destruct (truthy (dict_get d "row")) eqn:Hrow; rewrite ?bind_Ok.
  - destruct (truthy (dict_get d "@scores")); rewrite ?bind_Ok; [reflexivity |].
    destruct (truthy (dict_get d "scores")); reflexivity.
  - destruct (truthy (VDict d)) eqn:Hd; rewrite ?bind_Ok.
    + destruct (truthy (dict_get d "@scores")); rewrite ?bind_Ok; [reflexivity |].
      destruct (truthy (dict_get d "scores")); reflexivity.
    + apply truthy_empty_dict in Hd. subst d. reflexivity.
Qed.

Lemma extract_hit_not_dict (hit : value) :
  is_dict hit = false -> _extract_hit hit = Raise (no_attribute hit "get").
Proof. destruct hit; simpl; try reflexivity. discriminate. Qed.

Lemma read_hit_keys (row scores : value) (out : dict) :
  read_hit row scores = Ok out -> map fst out = HIT_KEYS.
Proof.
  unfold read_hit. intros H.
  do 8 bind_inv H. injection H as <-. reflexivity.
Qed.

Lemma read_hit_dicts (row scores : dict) :
  exists out, read_hit (VDict row) (VDict scores) = Ok out.
Proof. unfold read_hit. rewrite !py_get_dict, !bind_Ok. eauto. Qed.

Lemma read_hit_Ok_inv (row scores : value) (out : dict) :
  read_hit row scores = Ok out -> is_dict row = true /\ is_dict scores = true.
Proof.
  unfold read_hit.
  destruct row; try (simpl; discriminate).
  destruct scores; try (simpl; discriminate).
  intros _. split; reflexivity.
Qed.

(** The normaliser reads an element exactly when it is [hit_shaped]. *)
Lemma extract_hit_total (h : value) :
  hit_shaped h = true <-> exists out, _extract_hit h = Ok out.
Proof.
  split.
  - destruct h; simpl; try discriminate.
    intros [Hr Hs]%andb_prop.
    apply is_dict_true in Hr as [row Hr]. apply is_dict_true in Hs as [sc Hs].
    rewrite extract_hit_sources, Hr, Hs. apply read_hit_dicts.
  - intros [out Hout]. destruct h; try (simpl in Hout; discriminate).
    rewrite extract_hit_sources in Hout.
    apply read_hit_Ok_inv in Hout as [Hr Hs]. simpl. now rewrite Hr, Hs.
Qed.

(** The comprehension maps the elements one to one, in order. *)
Lemma extract_hits_Forall2 (hs : list value) (out : list dict) :
  extract_hits hs = Ok out -> Forall2 (fun h o => _extract_hit h = Ok o) hs out.
Proof.
  revert out. induction hs as [|h hs IH]; simpl; intros out Hout.
  - injection Hout as <-. constructor.
  - bind_inv Hout. bind_inv Hout. injection Hout as <-.
    constructor; [assumption | now apply IH].
Qed.

Lemma extract_hits_total (hs : list value) :
  forallb hit_shaped hs = true -> exists out, extract_hits hs = Ok out.
Proof.
  induction hs as [|h hs IH]; simpl; intros Hs.
  - eauto.
  - apply andb_prop in Hs as [Hh Hs].
    apply extract_hit_total in Hh as [o Ho]. destruct (IH Hs) as [os Hos].
    rewrite Ho, Hos. simpl. eauto.
Qed.

(** [search_hits] on a payload whose [results] is a list. *)
Lemma search_hits_list (d : dict) (hs : list value) :
  dict_get d "results" = VList hs -> search_hits (VDict d) = extract_hits hs.
Proof.
  intros Hres. unfold search_hits, py_or.
  destruct (truthy (VDict d)) eqn:Hd.
  - rewrite py_get_dict, bind_Ok, Hres. destruct hs; reflexivity.
  - apply truthy_empty_dict in Hd. subst d. simpl in Hres. discriminate.
Qed.

Lemma search_hits_falsy (data : value) :
  truthy data = false -> search_hits data = Ok [].
Proof. intros Hd. unfold search_hits, py_or. now rewrite Hd. Qed.

Lemma search_hits_falsy_results (d : dict) :
  truthy (dict_get d "results") = false -> search_hits (VDict d) = Ok [].
Proof.
  intros Hres. unfold search_hits, py_or.
  destruct (truthy (VDict d)) eqn:Hd.
  - rewrite py_get_dict, bind_Ok, Hres. reflexivity.
  - reflexivity.
Qed.

(** [run_search] once the statement has returned a first row. *)
Lemma run_search_first_row `{Json, Session}
    (query : string) (limit : Z) (service body : string) (raw : value) (rest : list value) :
  json_dumps None (search_payload query limit) = Ok body ->
  session_collect search_sql [VStr service; VStr body] = Ok (raw :: rest) ->
  run_search query limit service = (data ← decode raw; search_hits data).
Proof. intros Hbody Hrows. unfold run_search. now rewrite Hbody, bind_Ok, Hrows. Qed.

(** C10: every record [_extract_hit] emits has exactly the eight keys
    DOC_ID, FILENAME, RELATIVE_PATH, PERSON, DOC_TYPE, DOC_DATE, score_sem and
    score_text, in that order and no others, whatever keys the raw element
    carried. *)
Theorem extract_hit_keys (hit : value) (out : dict) :
  _extract_hit hit = Ok out ->
  map fst out =
    ["DOC_ID"; "FILENAME"; "RELATIVE_PATH"; "PERSON"; "DOC_TYPE"; "DOC_DATE";
     "score_sem"; "score_text"].
Proof.
  intros Hout. destruct (is_dict hit) eqn:Hd.
  - apply is_dict_true in Hd as [d ->].
    rewrite extract_hit_sources in Hout. exact (read_hit_keys _ _ _ Hout).
  - rewrite (extract_hit_not_dict _ Hd) in Hout. discriminate.
Qed.

Lemma extract_hit_keys_witness :
  let hit := VDict [("row", VDict [("DOC_ID", VInt 1); ("EXTRA", VStr "x")]);
                    ("@scores", VDict [("text_match", VInt 3)])] in
  let out := [("DOC_ID", VInt 1); ("FILENAME", VNone); ("RELATIVE_PATH", VNone);
              ("PERSON", VNone); ("DOC_TYPE", VNone); ("DOC_DATE", VNone);
              ("score_sem", VNone); ("score_text", VInt 3)] in
  _extract_hit hit = Ok out /\ map fst out = HIT_KEYS.
Proof.
  intros hit out. split; [reflexivity |].
  apply (extract_hit_keys hit out). reflexivity.
Defined.

(** C9 (as amended): for an element that is an object, the fields are read
    from its [row] value when that value is truthy (present, not null, not
    empty) and otherwise from the element itself; the scores are read from
    [@scores] when truthy, else from [scores] when truthy, else from an empty
    object.  A record is emitted exactly when both chosen sources are
    objects. *)
Theorem extract_hit_reads_sources (d : dict) (out : dict) :
  _extract_hit (VDict d) = Ok out <->
  exists row scores,
    row_source d = VDict row /\ scores_source d = VDict scores /\
    out = [("DOC_ID", dict_get row "DOC_ID"); ("FILENAME", dict_get row "FILENAME");
           ("RELATIVE_PATH", dict_get row "RELATIVE_PATH");
           ("PERSON", dict_get row "PERSON"); ("DOC_TYPE", dict_get row "DOC_TYPE");
           ("DOC_DATE", dict_get row "DOC_DATE");
           ("score_sem", dict_get scores "cosine_similarity");
           ("score_text", dict_get scores "text_match")].
Proof.
  rewrite extract_hit_sources. split.
  - intros Hout. destruct (read_hit_Ok_inv _ _ _ Hout) as [Hr Hs].
    apply is_dict_true in Hr as [row Hr]. apply is_dict_true in Hs as [sc Hs].
    exists row, sc. rewrite Hr, Hs in Hout |- *.
    unfold read_hit in Hout. rewrite !py_get_dict, !bind_Ok in Hout.
    injection Hout as <-. auto.
  - intros (row & sc & -> & -> & ->). reflexivity.
Qed.

Lemma extract_hit_reads_sources_witness :
  exists out,
    _extract_hit (VDict [("row", VDict [("DOC_ID", VInt 1)]); ("DOC_ID", VInt 2)]) = Ok out
    /\ dict_get out "DOC_ID" = VInt 1.
Proof.
  eexists. split.
  - apply (extract_hit_reads_sources
             [("row", VDict [("DOC_ID", VInt 1)]); ("DOC_ID", VInt 2)]).
    exists [("DOC_ID", VInt 1)], []. repeat split; reflexivity.
  - reflexivity.
Defined.

(** C9 as the claim words it fails: with a [row] key that is present but
    empty, and an [@scores] key that is present but empty, the fields come
    from the element itself and the scores from [scores], not from the two
    present sub-objects. *)
Lemma extract_hit_present_but_empty :
  let d := [("row", VDict []); ("DOC_ID", VInt 1);
            ("@scores", VDict []); ("scores", VDict [("text_match", VInt 7)])] in
  row_source_if_present d = VDict [] /\
  scores_source_if_present d = VDict [] /\
  (exists out, _extract_hit (VDict d) = Ok out
               /\ dict_get out "DOC_ID" = VInt 1 /\ dict_get out "score_text" = VInt 7) /\
  (exists out, read_hit (row_source_if_present d) (scores_source_if_present d) = Ok out
               /\ dict_get out "DOC_ID" = VNone /\ dict_get out "score_text" = VNone) /\
  _extract_hit (VDict d) <> read_hit (row_source_if_present d) (scores_source_if_present d).
Proof.
  intros d. repeat split.
  - eexists. repeat split.
  - eexists. repeat split.
  - discriminate.
Qed.

(** C8 (as amended): a payload that is falsy (null, empty) or an object
    whose [results] is absent or falsy yields no hits without raising, and a
    [results] list is normalised without raising whenever each element is an
    object whose row and scores sources are objects, whatever keys those
    objects lack. *)
Theorem search_hits_tolerance (data : value) :
  (truthy data = false -> search_hits data = Ok []) /\
  (forall d, data = VDict d -> truthy (dict_get d "results") = false ->
             search_hits data = Ok []) /\
  (forall d hs, data = VDict d -> dict_get d "results" = VList hs ->
                forallb hit_shaped hs = true ->
                exists out, search_hits data = Ok out /\ length out = length hs).
Proof.
  split; [| split].
  - apply search_hits_falsy.
  - intros d -> Hres. now apply search_hits_falsy_results.
  - intros d hs -> Hres Hs.
    destruct (extract_hits_total hs Hs) as [out Hout].
    exists out. rewrite (search_hits_list d hs Hres). split; [assumption |].
    symmetry. exact (Forall2_length _ _ _ (extract_hits_Forall2 _ _ Hout)).
Qed.

Lemma search_hits_tolerance_witness :
  search_hits VNone = Ok [] /\
  search_hits (VDict [("request_id", VStr "abc")]) = Ok [] /\
  exists out,
    search_hits (VDict [("results", VList [VDict []; VDict [("row", VDict [("X", VInt 1)])]])])
      = Ok out /\ length out = 2%nat.
Proof.
  split; [| split].
  - apply (proj1 (search_hits_tolerance VNone)). reflexivity.
  - apply (proj1 (proj2 (search_hits_tolerance (VDict [("request_id", VStr "abc")])))
             [("request_id", VStr "abc")]); reflexivity.
  - apply (proj2 (proj2 (search_hits_tolerance
             (VDict [("results", VList [VDict []; VDict [("row", VDict [("X", VInt 1)])]])])))
             [("results", VList [VDict []; VDict [("row", VDict [("X", VInt 1)])]])]
             [VDict []; VDict [("row", VDict [("X", VInt 1)])]]); reflexivity.
Defined.

(** C8 as the claim words it fails: a [results] value that is not a sequence
    (the number 5) raises instead of yielding no hits, and so do an element
    that is not an object and an element whose [row] is not an object. *)
Lemma search_hits_raises :
  search_hits (VDict [("results", VInt 5)])
    = Raise (Exn TypeError "'int' object is not iterable") /\
  search_hits (VDict [("results", VList [VInt 1])])
    = Raise (Exn AttributeError "'int' object has no attribute 'get'") /\
  search_hits (VDict [("results", VList [VDict [("row", VStr "r1")]])])
    = Raise (Exn AttributeError "'str' object has no attribute 'get'").
Proof. repeat split. Qed.

(** C7: when the raw payload decodes to an object whose [results] is the
    list [h1..hn], whatever [run_search] returns holds exactly one record
    per element, the i-th built from the i-th element (same order, nothing
    dropped, duplicates kept); and it does return whenever the elements are
    hit-shaped. *)
Theorem run_search_preserves_order `{Json, Session}
    (query : string) (limit : Z) (service body : string)
    (raw : value) (rest : list value) (d : dict) (hs : list value) :
  json_dumps None (search_payload query limit) = Ok body ->
  session_collect search_sql [VStr service; VStr body] = Ok (raw :: rest) ->
  decode raw = Ok (VDict d) ->
  dict_get d "results" = VList hs ->
  (forall out, run_search query limit service = Ok out ->
               Forall2 (fun h o => _extract_hit h = Ok o) hs out
               /\ length out = length hs) /\
  (forallb hit_shaped hs = true -> exists out, run_search query limit service = Ok out).
Proof.
  intros Hbody Hrows Hdec Hres.
  rewrite (run_search_first_row _ _ _ _ _ _ Hbody Hrows), Hdec, bind_Ok.
  rewrite (search_hits_list d hs Hres). split.
  - intros out Hout. apply extract_hits_Forall2 in Hout.
    split; [assumption |]. symmetry. exact (Forall2_length _ _ _ Hout).
  - apply extract_hits_total.
Qed.

Lemma run_search_preserves_order_witness :
  let reply :=
    Reference.quoted
      "{'results': [{'row': {'DOC_ID': 2, 'RELATIVE_PATH': 'a.pdf'}},
                    {'DOC_ID': 1, 'RELATIVE_PATH': 'a.pdf'},
                    {'row': {'DOC_ID': 2, 'RELATIVE_PATH': 'a.pdf'}}]}" in
  exists out,
    @run_search Reference.json (Reference.session (Ok [VStr reply])) "policy" 25 SEARCH_SERVICE
      = Ok out
    /\ map (fun r => dict_get r "DOC_ID") out = [VInt 2; VInt 1; VInt 2].
Proof.
  intros reply.
  pose proof (@run_search_preserves_order
                Reference.json (Reference.session (Ok [VStr reply]))
                "policy" 25 SEARCH_SERVICE _ (VStr reply) [] _ _
                eq_refl eq_refl eq_refl eq_refl) as [_ Hret].
  destruct (Hret eq_refl) as [out Hout].
  exists out. split; [exact Hout |].
  vm_compute in Hout. injection Hout as <-. reflexivity.
Defined.

(** C2 (as amended): when the raw payload is a string that [json.loads]
    rejects, [run_search] returns no hit list: the decode error is raised to
    its caller; the search action, which calls it under [try], then shows zero
    hits and the message "Search failed: ..." with that error. *)
Theorem run_search_decode_failure `{Json, Session}
    (query : string) (limit : Z) (service body s : string) (rest : list value) (e : exn) :
  json_dumps None (search_payload query limit) = Ok body ->
  session_collect search_sql [VStr service; VStr body] = Ok (VStr s :: rest) ->
  json_loads s = Raise e ->
  run_search query limit service = Raise e /\
  (service = SEARCH_SERVICE ->
   forall (T : Text) (p t : option string) (d1 d2 : option date),
     search_action query limit p t d1 d2 = ([], Some ("Search failed: " +:+ exn_msg e))).
Proof.
  intros Hbody Hrows Hdec.
  assert (Hrun : run_search query limit service = Raise e).
  { rewrite (run_search_first_row _ _ _ _ _ _ Hbody Hrows). simpl. now rewrite Hdec. }
  split; [exact Hrun |].
  intros -> T p t d1 d2. unfold search_action. now rewrite Hrun.
Qed.

Lemma run_search_decode_failure_witness :
  @run_search Reference.json (Reference.session (Ok [VStr "<html>502</html>"]))
    "policy" 25 SEARCH_SERVICE
  = Raise (Exn JSONDecodeError "Expecting value: line 1 column 1 (char 0)").
Proof.
  apply (@run_search_decode_failure
           Reference.json (Reference.session (Ok [VStr "<html>502</html>"]))
           "policy" 25 SEARCH_SERVICE _ "<html>502</html>" [] _
           eq_refl eq_refl eq_refl).
Defined.

(** C2 as the claim words it fails: on the raw payload ["not json"] the
    result is not the empty hit list, an exception reaches the caller. *)
Lemma run_search_not_json :
  @run_search Reference.json (Reference.session (Ok [VStr "not json"]))
    "policy" 25 SEARCH_SERVICE
  = Raise (Exn JSONDecodeError "Expecting value: line 1 column 1 (char 0)")
  /\ @run_search Reference.json (Reference.session (Ok [VStr "not json"]))
       "policy" 25 SEARCH_SERVICE
     <> Ok [].
Proof. split; [reflexivity | discriminate]. Qed.

(** ** Local filter *)

Lemma date_compare_antisym (a b : date) :
  date_compare b a = CompOpp (date_compare a b).
Proof.
  unfold date_compare.
  rewrite (Z.compare_antisym (year a) (year b)).
  rewrite (Z.compare_antisym (month a) (month b)).
  rewrite (Z.compare_antisym (day a) (day b)).
  destruct (year a ?= year b); simpl; try reflexivity.
  destruct (month a ?= month b); reflexivity.
Qed.

(** [d < lo] is the failure of [lo <= d]. *)
Lemma date_ltb_not_leb (a b : date) : date_ltb b a = negb (date_leb a b).
Proof.
  unfold date_ltb, date_leb. rewrite (date_compare_antisym a b).
  destruct (date_compare a b); reflexivity.
Qed.

Section FilterFacts.
Context `{T : Text}.
Variables (person doc_type : option string) (lo hi : option date).

(** The loop only ever appends rows it has met, in the order it met them. *)
Lemma filter_loop_sublist (rows out res : list dict) :
  filter_loop person doc_type lo hi rows out = Ok res ->
  exists kept, res = out ++ kept /\ kept `sublist_of` rows.
Proof.
  revert out res. induction rows as [|r rows IH]; simpl; intros out res Hres.
  - injection Hres as <-. exists []. rewrite app_nil_r. split; [reflexivity | constructor].
  - bind_inv Hres. destruct a.
    { destruct (IH _ _ Hres) as (kept & -> & Hsub).
      exists kept. split; [reflexivity | now apply sublist_cons]. }
    bind_inv Hres. destruct a.
    { destruct (IH _ _ Hres) as (kept & -> & Hsub).
      exists kept. split; [reflexivity | now apply sublist_cons]. }
    destruct (date_rejects lo hi r).
    { destruct (IH _ _ Hres) as (kept & -> & Hsub).
      exists kept. split; [reflexivity | now apply sublist_cons]. }
    destruct (IH _ _ Hres) as (kept & -> & Hsub).
    exists (r :: kept). rewrite <- app_assoc. split; [reflexivity | now apply sublist_skip].
Qed.

(** On a hit of the data model the text test never raises. *)
Lemma field_differs_typed (crit : option string) (r : dict) (key : string) :
  text_or_none (dict_get r key) = true ->
  exists b, field_differs crit r key = Ok b.
Proof.
  intros Ht. unfold field_differs. destruct crit as [c|]; [| eauto].
  destruct (String.eqb c ""); [eauto |].
  unfold py_or. destruct (dict_get r key); try discriminate; simpl.
  - eauto.
  - destruct (negb (String.eqb s "")); simpl; eauto.
Qed.

Lemma filter_loop_total (rows out : list dict) :
  forallb typed_hit rows = true ->
  exists res, filter_loop person doc_type lo hi rows out = Ok res.
Proof.
  revert out. induction rows as [|r rows IH]; simpl; intros out Hrows.
  - eauto.
  - apply andb_prop in Hrows as [Hr Hrows]. unfold typed_hit in Hr.
    apply andb_prop in Hr as [Hr Hdate]. apply andb_prop in Hr as [Hp Ht].
    destruct (field_differs_typed person r "PERSON" Hp) as [b1 ->].
    destruct (field_differs_typed doc_type r "DOC_TYPE" Ht) as [b2 ->].
    rewrite ?bind_Ok.
    destruct b1; [now apply IH |]. rewrite ?bind_Ok.
    destruct b2; [now apply IH |].
    destruct (date_rejects lo hi r); now apply IH.
Qed.
End FilterFacts.

(** With every criterion inactive no row is looked at and every row kept. *)
Lemma filter_loop_inactive `{T : Text} (rows out : list dict) :
  filter_loop None None None None rows out = Ok (out ++ rows).
Proof.
  revert out. induction rows as [|r rows IH]; simpl; intros out.
  - now rewrite app_nil_r.
  - rewrite IH, <- app_assoc. reflexivity.
Qed.

(** C6: whatever [filter_hits_locally] returns is a subsequence of its input
    in the input's order; with person, doc_type, d_from and d_to all [None] it
    returns the input unchanged; and on hits of the data model it returns. *)
Theorem filter_hits_subsequence `{T : Text}
    (person doc_type : option string) (d_from d_to : option date) (rows : list dict) :
  (forall out, filter_hits_locally person doc_type d_from d_to rows = Ok out ->
               out `sublist_of` rows) /\
  filter_hits_locally None None None None rows = Ok rows /\
  (forallb typed_hit rows = true ->
   exists out, filter_hits_locally person doc_type d_from d_to rows = Ok out).
Proof.
  unfold filter_hits_locally. split; [| split].
  - intros out Hout.
    destruct (filter_loop_sublist _ _ _ _ _ _ _ Hout) as (kept & -> & Hsub). exact Hsub.
  - apply filter_loop_inactive.
  - apply filter_loop_total.
Qed.

Lemma filter_hits_subsequence_witness :
  let rows := [[("PERSON", VStr "Alice"); ("DOC_DATE", VStr "2025-01-15")];
               [("PERSON", VStr "Bob"); ("DOC_DATE", VNone)];
               [("PERSON", VStr "ALICE"); ("DOC_DATE", VStr "2025-03-01T08:00:00")]] in
  exists out,
    @filter_hits_locally Reference.text (Some "alice") None None None rows = Ok out
    /\ out `sublist_of` rows.
Proof.
  intros rows.
  destruct (@filter_hits_subsequence Reference.text (Some "alice") None None None rows)
    as (Hsub & _ & Hret).
  destruct (Hret eq_refl) as [out Hout].
  exists out. split; [exact Hout | exact (Hsub out Hout)].
Defined.

Section FilterRefinement.
Context `{T : Text} {L : TextLaws T}.
Variables (person doc_type : option string) (lo hi : option date).

Lemma lower_differs_from_empty (c : string) :
  String.eqb c "" = false -> String.eqb (str_lower "") (str_lower c) = false.
Proof.
  intros Hc. apply String.eqb_neq. intros Heq.
  apply String.eqb_neq in Hc. apply Hc. apply str_lower_empty. now symmetry.
Qed.

(** The text test of the loop is the negation of the criterion. *)
Lemma field_differs_spec (crit : option string) (r : dict) (key : string) :
  text_or_none (dict_get r key) = true ->
  field_differs crit r key = Ok (negb (criterion_passes (active_if_truthy crit) r key)).
Proof.
  intros Ht. unfold field_differs, criterion_passes, active_if_truthy.
  destruct crit as [c|]; [| reflexivity].
  destruct (String.eqb c "") eqn:Hc; [reflexivity |].
  unfold py_or, field_matches, same_text.
  destruct (dict_get r key); try discriminate; simpl.
  - now rewrite (lower_differs_from_empty c Hc).
  - destruct (String.eqb s "") eqn:Hs; simpl; [| reflexivity].
    apply String.eqb_eq in Hs. subst s. reflexivity.
Qed.

(** [to_date] on a typed field is the date of the hit. *)
Lemma to_date_spec (r : dict) :
  text_or_none (dict_get r "DOC_DATE") = true ->
  to_date (dict_get r "DOC_DATE") = hit_date r.
Proof.
  intros Ht. unfold to_date, hit_date.
  destruct (dict_get r "DOC_DATE"); try discriminate; simpl; [reflexivity |].
  destruct (String.eqb s "") eqn:Hs; simpl; [| reflexivity].
  apply String.eqb_eq in Hs. subst s. simpl. symmetry. apply fromisoformat_empty.
Qed.

(** The date block reaches [continue] exactly when the range test fails. *)
Lemma date_rejects_spec (r : dict) :
  text_or_none (dict_get r "DOC_DATE") = true ->
  date_rejects lo hi r = negb (date_passes lo hi r).
Proof.
  intros Ht. unfold date_rejects, date_passes, before_from, after_to.
  rewrite (to_date_spec r Ht).
  destruct lo as [l|], hi as [h|]; try reflexivity;
    destruct (hit_date r) as [d|]; try reflexivity;
    rewrite ?date_ltb_not_leb, ?negb_andb, ?andb_true_r, ?orb_false_r; reflexivity.
Qed.

Lemma filter_loop_spec (rows out : list dict) :
  forallb typed_hit rows = true ->
  filter_loop person doc_type lo hi rows out
  = Ok (out ++ List.filter (survives active_if_truthy person doc_type lo hi) rows).
Proof.
  revert out. induction rows as [|r rows IH]; simpl; intros out Hrows.
  - now rewrite app_nil_r.
  - apply andb_prop in Hrows as [Hr Hrows]. unfold typed_hit in Hr.
    apply andb_prop in Hr as [Hr Hdate]. apply andb_prop in Hr as [Hp Ht].
    rewrite (field_differs_spec person r "PERSON" Hp), bind_Ok.
    unfold survives at 1.
    destruct (criterion_passes (active_if_truthy person) r "PERSON"); simpl;
      [| now apply IH].
    rewrite (field_differs_spec doc_type r "DOC_TYPE" Ht), bind_Ok.
    destruct (criterion_passes (active_if_truthy doc_type) r "DOC_TYPE"); simpl;
      [| now apply IH].
    rewrite (date_rejects_spec r Hdate).
    destruct (date_passes lo hi r); simpl; [| now apply IH].
    rewrite (IH _ Hrows), <- app_assoc. reflexivity.
Qed.
End FilterRefinement.

(** The reference runtime satisfies the laws. *)
Lemma reference_text_laws : TextLaws Reference.text.
Proof.
  split.
  - intros s. simpl. destruct s; [reflexivity | discriminate].
  - reflexivity.
Qed.

(** C3 (as amended): on hits of the data model, a hit is in the output of
    [filter_hits_locally] iff every active criterion passes on it, where a text
    criterion is active when it is neither [None] nor the empty string:
    person and doc_type by case-insensitive equality (an absent or null field
    fails), the date range by reading the first ten characters of DOC_DATE as
    an ISO date with inclusive bounds (an absent or unparsable date fails when
    a bound is active; the date is not looked at when both are inactive). *)
Theorem filter_hits_characterised `{T : Text} (L : TextLaws T)
    (person doc_type : option string) (d_from d_to : option date) (rows : list dict) :
  forallb typed_hit rows = true ->
  exists out,
    filter_hits_locally person doc_type d_from d_to rows = Ok out /\
    out = List.filter (survives active_if_truthy person doc_type d_from d_to) rows /\
    forall r, In r out <->
              In r rows /\ survives active_if_truthy person doc_type d_from d_to r = true.
Proof.
  intros Hrows. eexists. split; [| split; [reflexivity |]].
  - unfold filter_hits_locally. now rewrite filter_loop_spec.
  - intros r. apply filter_In.
Qed.

Lemma filter_hits_characterised_witness :
  let rows := [[("DOC_ID", VInt 1); ("PERSON", VStr "Alice"); ("DOC_TYPE", VStr "Invoice");
                ("DOC_DATE", VStr "2025-01-15")];
               [("DOC_ID", VInt 2); ("PERSON", VStr "ALICE"); ("DOC_TYPE", VStr "invoice");
                ("DOC_DATE", VNone)];
               [("DOC_ID", VInt 3); ("PERSON", VStr "alice"); ("DOC_TYPE", VStr "invoice");
                ("DOC_DATE", VStr "2025-02-01T09:30:00")];
               [("DOC_ID", VInt 4); ("PERSON", VNone); ("DOC_TYPE", VStr "invoice");
                ("DOC_DATE", VStr "2025-01-20")]] in
  exists out,
    @filter_hits_locally Reference.text (Some "alice") (Some "invoice")
      (Some (Date 2025 1 15)) (Some (Date 2025 1 31)) rows = Ok out
    /\ map (fun r => dict_get r "DOC_ID") out = [VInt 1].
Proof.
  intros rows.
  destruct (@filter_hits_characterised Reference.text reference_text_laws
              (Some "alice") (Some "invoice") (Some (Date 2025 1 15)) (Some (Date 2025 1 31))
              rows eq_refl) as (out & Hout & Heq & _).
  exists out. split; [exact Hout |]. rewrite Heq. reflexivity.
Defined.

(** C3 as the claim words it fails: a person criterion that is the empty
    string is not [None], and no hit equals it case-insensitively, yet the
    hit is kept. *)
Lemma filter_hits_empty_person :
  let rows := [[("PERSON", VStr "Bob")]] in
  @filter_hits_locally Reference.text (Some "") None None None rows = Ok rows /\
  List.filter (@survives Reference.text active_if_not_none (Some "") None None None) rows = [].
Proof. split; reflexivity. Qed.

(** ** Agent answer *)

(** After the [m.get("content")] test has passed, [m["content"]] cannot
    raise [KeyError]. *)
Lemma getitem_after_get (m : dict) (k : string) :
  truthy (dict_get m k) = true -> dict_getitem m k = Ok (dict_get m k).
Proof.
  intros Ht. unfold dict_getitem. now rewrite (truthy_dict_get m k Ht).
Qed.

Lemma nonempty_content_dict (m : dict) :
  nonempty_content (VDict m)
  = if truthy (dict_get m "content") then Some (dict_get m "content") else None.
Proof.
  unfold nonempty_content, dict_get.
  destruct (dict_lookup "content" m) as [c|]; reflexivity.
Qed.

(** The forward scan returns the first non-empty content it meets. *)
Lemma scan_content_head (ms : list value) :
  scan_content ms = Ok (head (omap nonempty_content ms)).
Proof.
  induction ms as [|m ms IH]; [reflexivity |].
  destruct m; try exact IH.
  change (omap nonempty_content (VDict d :: ms))
    with (match nonempty_content (VDict d) with
          | Some c => c :: omap nonempty_content ms
          | None => omap nonempty_content ms
          end).
  simpl scan_content. rewrite nonempty_content_dict.
  destruct (truthy (dict_get d "content")) eqn:Hc.
  - now rewrite (getitem_after_get d "content" Hc).
  - exact IH.
Qed.

Lemma head_omap_rev {A B} (f : A -> option B) (l : list A) :
  head (omap f (rev l)) = last (omap f l).
Proof.
  induction l as [|x l IH]; [reflexivity |].
  simpl rev. rewrite omap_app, head_app, IH.
  change (omap f (x :: l))
    with (match f x with Some y => y :: omap f l | None => omap f l end).
  change (omap f [x]) with (match f x with Some y => [y] | None => [] end).
  destruct (f x) as [y|].
  - rewrite last_cons. destruct (last (omap f l)); reflexivity.
  - destruct (last (omap f l)); reflexivity.
Qed.

(** Scanning the reversed sequence finds the content of the last element that
    has one. *)
Lemma scan_content_rev (turns : list value) :
  scan_content (rev turns) = Ok (last_content turns).
Proof. rewrite scan_content_head. unfold last_content. now rewrite head_omap_rev. Qed.

Lemma py_or_candidates (d : dict) :
  py_or (py_or (dict_get d "messages") (dict_get d "output")) (VList []) = candidates d.
Proof.
  unfold py_or, candidates.
  destruct (truthy (dict_get d "messages")) eqn:Hm; [now rewrite Hm |].
  destruct (truthy (dict_get d "output")) eqn:Ho; reflexivity.
Qed.

(** Lines 129-137 never raise, and find the answer of rules 4 and 5 with
    the candidates chosen by truthiness. *)
Lemma find_answer_dict (d : dict) :
  find_answer (VDict d) = Ok (answer_with candidates d).
Proof.
  assert (Hscan : scan_turns d
                  = Ok (match candidates d with
                        | VList turns => last_content turns
                        | _ => None
                        end)).
  { unfold scan_turns. rewrite py_or_candidates.
    destruct (candidates d); try reflexivity. apply scan_content_rev. }
  unfold find_answer, answer_with.
  destruct (dict_get d "message") as [| | | | |l|msg] eqn:Hmsg; try exact Hscan.
  rewrite nonempty_content_dict.
  destruct (truthy (dict_get msg "content")) eqn:Hc.
  - now rewrite (getitem_after_get msg "content" Hc).
  - exact Hscan.
Qed.

Lemma find_answer_not_dict (data : value) :
  is_dict data = false -> find_answer data = Ok None.
Proof. destruct data; simpl; try reflexivity. discriminate. Qed.

Lemma find_answer_total (data : value) : exists found, find_answer data = Ok found.
Proof.
  destruct (is_dict data) eqn:Hd.
  - apply is_dict_true in Hd as [d ->]. rewrite find_answer_dict. eauto.
  - rewrite (find_answer_not_dict data Hd). eauto.
Qed.

(** [agent_answer] once the statement has returned a first row. *)
Lemma agent_answer_first_row `{Json, Session}
    (prompt : string) (obj : value) (rest : list value) :
  session_collect agent_sql [VStr "FA_DOCS_AGENT"; VStr prompt] = Ok (obj :: rest) ->
  agent_answer prompt
  = try_except (extract_answer obj)
               (fun e => Ok (VStr ("Agent call failed: " +:+ exn_msg e))).
Proof. intros Hrows. unfold agent_answer. now rewrite Hrows. Qed.

(** X1: whatever the session and the [json] module do, [agent_answer]
    returns: no exception leaves it. *)
Theorem agent_answer_never_raises `{Json, Session} (prompt : string) :
  exists v, agent_answer prompt = Ok v.
Proof.
  unfold agent_answer, try_except.
  destruct (session_collect agent_sql [VStr "FA_DOCS_AGENT"; VStr prompt] ≫= _); eauto.
Qed.

(** X2: when the payload decodes and the answer found in it, if any, is a
    string, the result of [agent_answer] is a string. *)
Theorem agent_answer_string `{Json, Session}
    (prompt : string) (obj : value) (rest : list value) (data : value) (found : option value) :
  session_collect agent_sql [VStr "FA_DOCS_AGENT"; VStr prompt] = Ok (obj :: rest) ->
  decode obj = Ok data ->
  find_answer data = Ok found ->
  (forall c, found = Some c -> is_str c = true) ->
  exists s, agent_answer prompt = Ok (VStr s).
Proof.
  intros Hrows Hdec Hfound Hstr.
  rewrite (agent_answer_first_row prompt obj rest Hrows).
  unfold extract_answer. rewrite Hdec, bind_Ok, Hfound, bind_Ok.
  destruct found as [c|].
  - specialize (Hstr c eq_refl). destruct c; try discriminate. simpl. eauto.
  - destruct (json_dumps (Some 2%nat) data); simpl; eauto.
Qed.

Lemma agent_answer_string_witness :
  exists s,
    @agent_answer Reference.json
      (Reference.session
         (Ok [VStr (Reference.quoted "{'message': {'content': 'There are 42 documents.'}}")]))
      "How many documents are in RAW_DOCS?"
    = Ok (VStr s).
Proof.
  eapply (@agent_answer_string Reference.json
            (Reference.session
               (Ok [VStr (Reference.quoted "{'message': {'content': 'There are 42 documents.'}}")]))
            "How many documents are in RAW_DOCS?" _ [] _ _ eq_refl eq_refl eq_refl).
  intros c [= <-]. reflexivity.
Defined.

(** C1: the claim is that [agent_answer] always returns a string.  On the
    payload [{"message": {"content": 42}}], and on one whose content is a list
    of blocks, it returns the content itself, which is not a string. *)
Theorem agent_answer_non_string_content :
  @agent_answer Reference.json
    (Reference.session (Ok [VStr (Reference.quoted "{'message': {'content': 42}}")]))
    "How many documents are in RAW_DOCS?"
  = Ok (VInt 42)
  /\ is_str (VInt 42) = false
  /\ @agent_answer Reference.json
       (Reference.session
          (Ok [VStr (Reference.quoted
                       "{'messages': [{'role': 'assistant', 'content': [{'text': 'Hi'}]}]}")]))
       "Say hi"
     = Ok (VList [VDict [("text", VStr "Hi")]]).
Proof. repeat split. Qed.

(** What [extract_answer] returns once the payload has decoded to an
    object. *)
Lemma extract_answer_decoded `{Json} (obj : value) (d : dict) :
  decode obj = Ok (VDict d) ->
  extract_answer obj
  = match answer_with candidates d with
    | Some c => Ok c
    | None => s ← json_dumps (Some 2%nat) (VDict d); Ok (VStr s)
    end.
Proof.
  intros Hdec. unfold extract_answer. now rewrite Hdec, bind_Ok, find_answer_dict, bind_Ok.
Qed.

(** An answer of [extract_answer] on the first row is the answer of
    [agent_answer]. *)
Lemma agent_answer_extracted `{Json, Session}
    (prompt : string) (obj : value) (rest : list value) (c : value) :
  session_collect agent_sql [VStr "FA_DOCS_AGENT"; VStr prompt] = Ok (obj :: rest) ->
  extract_answer obj = Ok c ->
  agent_answer prompt = Ok c.
Proof.
  intros Hrows Hc. rewrite (agent_answer_first_row prompt obj rest Hrows). now rewrite Hc.
Qed.

(** C4 (as amended): for a payload, JSON text or already decoded, that
    decodes to an object: when [message] is an object with non-empty [content]
    the extractor returns that content; otherwise it takes the sequence under
    [messages] when that value is truthy (present and not empty), else the one
    under [output], scans it from the end toward the start and returns the
    first non-empty [content] of an element; for
    messages = [{content:"A"}, {content:""}, {content:"B"}] it returns "B".
    This holds of [extract_answer] on the payload and of [agent_answer] on the
    prompt whose first row carries it. *)
Theorem extract_answer_rules `{Json, Session}
    (prompt : string) (obj : value) (rest : list value) (d : dict) (c : value) :
  session_collect agent_sql [VStr "FA_DOCS_AGENT"; VStr prompt] = Ok (obj :: rest) ->
  decode obj = Ok (VDict d) ->
  (nonempty_content (dict_get d "message") = Some c ->
   extract_answer obj = Ok c /\ agent_answer prompt = Ok c) /\
  (nonempty_content (dict_get d "message") = None ->
   forall turns, candidates d = VList turns -> last_content turns = Some c ->
                 extract_answer obj = Ok c /\ agent_answer prompt = Ok c) /\
  (d = [("messages", VList [VDict [("content", VStr "A")];
                            VDict [("content", VStr "")];
                            VDict [("content", VStr "B")]])] ->
   extract_answer obj = Ok (VStr "B") /\ agent_answer prompt = Ok (VStr "B")).
Proof.
  intros Hrows Hdec.
  assert (Hboth : forall a, extract_answer obj = Ok a ->
                            extract_answer obj = Ok a /\ agent_answer prompt = Ok a).
  { intros a Ha. split; [exact Ha | exact (agent_answer_extracted prompt obj rest a Hrows Ha)]. }
  split; [| split].
  - intros Hmsg. apply Hboth. rewrite (extract_answer_decoded obj d Hdec).
    unfold answer_with. now rewrite Hmsg.
  - intros Hmsg turns Hturns Hlast. apply Hboth. rewrite (extract_answer_decoded obj d Hdec).
    unfold answer_with. now rewrite Hmsg, Hturns, Hlast.
  - intros ->. apply Hboth. rewrite (extract_answer_decoded obj _ Hdec). reflexivity.
Qed.

Lemma extract_answer_rules_witness :
  let text :=
    Reference.quoted "{'messages': [{'content': 'A'}, {'content': ''}, {'content': 'B'}]}" in
  let reply :=
    Reference.quoted
      "{'message': {'role': 'assistant'},
        'output': [{'content': 'first'}, 'noise', {'content': 'last'}, {'content': null}]}" in
  (@extract_answer Reference.json (VStr text) = Ok (VStr "B") /\
   @agent_answer Reference.json (Reference.session (Ok [VStr text])) "Say B" = Ok (VStr "B")) /\
  (@extract_answer Reference.json (VStr reply) = Ok (VStr "last") /\
   @agent_answer Reference.json (Reference.session (Ok [VStr reply])) "Say last"
   = Ok (VStr "last")).
Proof.
  intros text reply. split.
  - exact (proj2 (proj2 (@extract_answer_rules
             Reference.json (Reference.session (Ok [VStr text]))
             "Say B" (VStr text) [] _ (VStr "B") eq_refl eq_refl)) eq_refl).
  - exact (proj1 (proj2 (@extract_answer_rules
             Reference.json (Reference.session (Ok [VStr reply]))
             "Say last" (VStr reply) []
             [("message", VDict [("role", VStr "assistant")]);
              ("output", VList [VDict [("content", VStr "first")]; VStr "noise";
                                VDict [("content", VStr "last")];
                                VDict [("content", VNone)]])]
             (VStr "last") eq_refl eq_refl))
           eq_refl _ eq_refl eq_refl).
Defined.

(** C4 as the claim words it fails: with a [messages] key that is present
    but holds an empty list, the sequence under [output] is scanned and its
    content returned, where taking [messages] because it is present finds no
    content at all. *)
Lemma extract_answer_empty_messages :
  let d := [("messages", VList []); ("output", VList [VDict [("content", VStr "X")]])] in
  candidates_if_present d = VList [] /\
  answer_with candidates_if_present d = None /\
  find_answer (VDict d) = Ok (Some (VStr "X")) /\
  @extract_answer Reference.json (VDict d) = Ok (VStr "X").
Proof. repeat split. Qed.

(** C5 (as amended): when the payload is a string that [json.loads] rejects,
    the extractor returns the text "Agent call failed: " followed by the
    decode error; the indented dump is what it returns when the payload
    decodes (or needs no decoding) and holds no answer. *)
Theorem agent_answer_decode_failure `{Json, Session}
    (prompt : string) (obj : value) (rest : list value) :
  session_collect agent_sql [VStr "FA_DOCS_AGENT"; VStr prompt] = Ok (obj :: rest) ->
  (forall s e, obj = VStr s -> json_loads s = Raise e ->
               agent_answer prompt = Ok (VStr ("Agent call failed: " +:+ exn_msg e))) /\
  (forall data text, decode obj = Ok data -> find_answer data = Ok None ->
                     json_dumps (Some 2%nat) data = Ok text ->
                     agent_answer prompt = Ok (VStr text)).
Proof.
  intros Hrows. rewrite (agent_answer_first_row prompt obj rest Hrows).
  unfold extract_answer. split.
  - intros s e -> Hdec. simpl. now rewrite Hdec.
  - intros data text Hdec Hnone Hdump.
    now rewrite Hdec, bind_Ok, Hnone, bind_Ok, Hdump.
Qed.

Lemma agent_answer_decode_failure_witness :
  @agent_answer Reference.json (Reference.session (Ok [VStr "upstream timeout"])) "Say hi"
  = Ok (VStr "Agent call failed: Expecting value: line 1 column 1 (char 0)")
  /\ @agent_answer Reference.json
       (Reference.session (Ok [VStr (Reference.quoted "{'status': 'done', 'output': []}")]))
       "Say hi"
     = Ok (VStr (Reference.quoted "{
  'status': 'done',
  'output': []
}")).
Proof.
  split.
  - apply (proj1 (@agent_answer_decode_failure
             Reference.json (Reference.session (Ok [VStr "upstream timeout"]))
             "Say hi" (VStr "upstream timeout") [] eq_refl)
           "upstream timeout" _ eq_refl eq_refl).
  - apply (proj2 (@agent_answer_decode_failure
             Reference.json
             (Reference.session (Ok [VStr (Reference.quoted "{'status': 'done', 'output': []}")]))
             "Say hi" (VStr (Reference.quoted "{'status': 'done', 'output': []}")) [] eq_refl)
           (VDict [("status", VStr "done"); ("output", VList [])]) _
           eq_refl eq_refl eq_refl).
Defined.

(** C5 as the claim words it fails: on the payload ["not json"] the result
    is the failure text, not the indented serialisation of the value. *)
Lemma agent_answer_not_json :
  @agent_answer Reference.json (Reference.session (Ok [VStr "not json"])) "Say hi"
  = Ok (VStr "Agent call failed: Expecting value: line 1 column 1 (char 0)")
  /\ @json_dumps Reference.json (Some 2%nat) (VStr "not json")
     = Ok (Reference.quoted "'not json'").
Proof. split; reflexivity. Qed.

(** ** The scenarios of the specification, run on the reference runtime *)

(** P3: the person filter ignores case. *)
Example filter_ignores_case :
  @filter_hits_locally Reference.text (Some "alice") None None None
    [[("PERSON", VStr "Alice")]] = Ok [[("PERSON", VStr "Alice")]]
  /\ @filter_hits_locally Reference.text (Some "ALICE") None None None
       [[("PERSON", VStr "Alice")]] = Ok [[("PERSON", VStr "Alice")]].
Proof. split; reflexivity. Qed.

(** P4: a hit without a date is dropped under a date bound and kept without
    one. *)
Example filter_absent_date :
  @filter_hits_locally Reference.text None None (Some (Date 2025 1 1)) None
    [[("DOC_ID", VInt 1)]] = Ok []
  /\ @filter_hits_locally Reference.text None None None (Some (Date 2025 1 1))
       [[("DOC_ID", VInt 1)]] = Ok []
  /\ @filter_hits_locally Reference.text (Some "bob") None None None
       [[("PERSON", VStr "Bob")]] = Ok [[("PERSON", VStr "Bob")]].
Proof. repeat split. Qed.

(** Scenario 1: one invoice found, filtered by document type. *)
Example scenario_invoice :
  @search_action Reference.json Reference.text
    (Reference.session
       (Ok [VStr (Reference.quoted
          "{'results':[{'row':{'DOC_ID':1,'PERSON':'Bob','DOC_TYPE':'invoice','DOC_DATE':'2025-01-15'}}]}")]))
    "invoice total" 25 None (Some "invoice") None None
  = ([[("DOC_ID", VInt 1); ("FILENAME", VNone); ("RELATIVE_PATH", VNone);
       ("PERSON", VStr "Bob"); ("DOC_TYPE", VStr "invoice"); ("DOC_DATE", VStr "2025-01-15");
       ("score_sem", VNone); ("score_text", VNone)]], None).
Proof. reflexivity. Qed.

(** Scenario 2: an empty [results] list gives no hits and no error. *)
Example scenario_no_results :
  @search_action Reference.json Reference.text
    (Reference.session (Ok [VStr (Reference.quoted "{'results':[]}")]))
    "onboarding" 25 None None None None
  = ([], None).
Proof. reflexivity. Qed.

(** Scenario 3: the answer under [message.content]. *)
Example scenario_message_content :
  @agent_answer Reference.json
    (Reference.session
       (Ok [VStr (Reference.quoted "{'message':{'content':'There are 42 documents.'}}")]))
    "How many documents are in RAW_DOCS?"
  = Ok (VStr "There are 42 documents.").
Proof. reflexivity. Qed.

(** The statement returning no row, and the session call failing. *)
Example agent_no_rows_and_failure :
  @agent_answer Reference.json (Reference.session (Ok [])) "Say hi"
  = Ok (VStr "Agent returned no result.")
  /\ @agent_answer Reference.json
       (Reference.session (Raise (Exn SnowparkSQLException "Unknown function EXECUTE_AGENT")))
       "Say hi"
     = Ok (VStr "Agent call failed: Unknown function EXECUTE_AGENT").
Proof. split; reflexivity. Qed.

(** * Further properties of the helpers *)

(** ** The filter, row by row *)

Section FilterVerdicts.
Context `{T : Text}.
Variables (person doc_type : option string) (lo hi : option date).

Lemma filter_loop_step (r : dict) (rest out : list dict) :
  filter_loop person doc_type lo hi (r :: rest) out
  = (keep ← row_verdict person doc_type lo hi r;
     filter_loop person doc_type lo hi rest (if keep : bool then out ++ [r] else out)).
Proof.
  simpl. unfold row_verdict.
  destruct (field_differs person r "PERSON") as [[|]|e]; try reflexivity.
  rewrite !bind_Ok.
  destruct (field_differs doc_type r "DOC_TYPE") as [[|]|e]; try reflexivity.
  rewrite !bind_Ok. destruct (date_rejects lo hi r); reflexivity.
Qed.

(** The loop returns exactly when every row gets a verdict, and then it
    returns the accumulator followed by the rows to keep. *)
Lemma filter_loop_verdicts (rows out res : list dict) :
  filter_loop person doc_type lo hi rows out = Ok res <->
  exists kept, verdicts (row_verdict person doc_type lo hi) rows kept /\ res = out ++ kept.
Proof.
  revert out res. induction rows as [|r rows IH]; intros out res.
  - simpl. split.
    + intros [= <-]. exists []. split; [constructor | now rewrite app_nil_r].
    + intros (kept & Hv & ->). inversion Hv. now rewrite app_nil_r.
  - rewrite filter_loop_step. split.
    + intros Hres. bind_inv Hres. apply IH in Hres as (kept & Hv & ->).
      destruct a.
      * exists (r :: kept). split; [now constructor |]. now rewrite <- app_assoc.
      * exists kept. split; [now apply verdicts_drop | reflexivity].
    + intros (kept & Hv & ->). inversion Hv as [|r' rows' kept' Hr Hrest|r' rows' kept' Hr Hrest]; subst.
      * rewrite Hr, bind_Ok. apply IH. exists kept'. split; [assumption |].
        now rewrite <- app_assoc.
      * rewrite Hr, bind_Ok. apply IH. eauto.
Qed.
End FilterVerdicts.

Lemma filter_hits_verdicts `{T : Text}
    (person doc_type : option string) (lo hi : option date) (rows out : list dict) :
  filter_hits_locally person doc_type lo hi rows = Ok out <->
  verdicts (row_verdict person doc_type lo hi) rows out.
Proof.
  unfold filter_hits_locally. rewrite filter_loop_verdicts. split.
  - intros (kept & Hv & ->). exact Hv.
  - intros Hv. eauto.
Qed.

(** Rows that were kept are kept again. *)
Lemma verdicts_kept_again (v : dict -> result bool) (rows kept : list dict) :
  verdicts v rows kept -> verdicts v kept kept.
Proof. induction 1; [constructor | now constructor | assumption]. Qed.

(** X3: filtering is idempotent: whenever [filter_hits_locally] returns,
    filtering its output again with the same criteria returns that output
    unchanged. *)
Theorem filter_hits_idempotent `{T : Text}
    (person doc_type : option string) (d_from d_to : option date) (rows out : list dict) :
  filter_hits_locally person doc_type d_from d_to rows = Ok out ->
  filter_hits_locally person doc_type d_from d_to out = Ok out.
Proof.
  rewrite !filter_hits_verdicts. apply verdicts_kept_again.
Qed.

Lemma filter_hits_idempotent_witness :
  let rows := [[("PERSON", VStr "Alice"); ("DOC_DATE", VStr "2025-01-15")];
               [("PERSON", VStr "Bob"); ("DOC_DATE", VStr "2025-01-16")];
               [("PERSON", VStr "ALICE"); ("DOC_DATE", VStr "2024-12-31")]] in
  let out := [[("PERSON", VStr "Alice"); ("DOC_DATE", VStr "2025-01-15")]] in
  @filter_hits_locally Reference.text (Some "alice") None (Some (Date 2025 1 1)) None out
  = Ok out.
Proof.
  intros rows out.
  apply (@filter_hits_idempotent Reference.text
           (Some "alice") None (Some (Date 2025 1 1)) None rows out).
  reflexivity.
Defined.

Section FilterStages.
Context `{T : Text}.
Variables (person doc_type : option string) (lo hi : option date).

Lemma field_differs_none (r : dict) (key : string) : field_differs None r key = Ok false.
Proof. reflexivity. Qed.

Lemma date_rejects_none (r : dict) : date_rejects None None r = false.
Proof. reflexivity. Qed.

Lemma row_verdict_person (r : dict) :
  row_verdict person None None None r
  = (skip ← field_differs person r "PERSON"; Ok (negb skip)).
Proof.
  unfold row_verdict. destruct (field_differs person r "PERSON") as [[|]|e]; reflexivity.
Qed.

Lemma row_verdict_type (r : dict) :
  row_verdict None doc_type None None r
  = (skip ← field_differs doc_type r "DOC_TYPE"; Ok (negb skip)).
Proof.
  unfold row_verdict. rewrite field_differs_none, bind_Ok.
  destruct (field_differs doc_type r "DOC_TYPE") as [[|]|e]; reflexivity.
Qed.

Lemma row_verdict_date (r : dict) :
  row_verdict None None lo hi r = Ok (negb (date_rejects lo hi r)).
Proof. reflexivity. Qed.

(** A verdict to keep under all the criteria is a verdict to keep under
    each. *)
Lemma row_verdict_keep (r : dict) :
  row_verdict person doc_type lo hi r = Ok true <->
  row_verdict person None None None r = Ok true /\
  row_verdict None doc_type None None r = Ok true /\
  row_verdict None None lo hi r = Ok true.
Proof.
  rewrite row_verdict_person, row_verdict_type, row_verdict_date.
  unfold row_verdict.
  destruct (field_differs person r "PERSON") as [[|]|e];
    destruct (field_differs doc_type r "DOC_TYPE") as [[|]|e'];
    destruct (date_rejects lo hi r); simpl; split;
    try (intros (? & ? & ?)); try intros ?; try discriminate; auto.
Qed.

(** A verdict to drop is a verdict to drop at the first stage that looks at
    the row and says so, the earlier stages keeping it. *)
Lemma row_verdict_drop (r : dict) :
  row_verdict person doc_type lo hi r = Ok false <->
  row_verdict person None None None r = Ok false \/
  (row_verdict person None None None r = Ok true /\
   row_verdict None doc_type None None r = Ok false) \/
  (row_verdict person None None None r = Ok true /\
   row_verdict None doc_type None None r = Ok true /\
   row_verdict None None lo hi r = Ok false).
Proof.
  rewrite row_verdict_person, row_verdict_type, row_verdict_date.
  unfold row_verdict.
  destruct (field_differs person r "PERSON") as [[|]|e];
    destruct (field_differs doc_type r "DOC_TYPE") as [[|]|e'];
    destruct (date_rejects lo hi r); simpl; split;
    try (intros [?|[(? & ?)|(? & ? & ?)]]); try intros ?; try discriminate; auto 6.
Qed.

Lemma verdicts_stages_split (rows out : list dict) :
  verdicts (row_verdict person doc_type lo hi) rows out ->
  exists r1 r2,
    verdicts (row_verdict person None None None) rows r1 /\
    verdicts (row_verdict None doc_type None None) r1 r2 /\
    verdicts (row_verdict None None lo hi) r2 out.
Proof.
  induction 1 as [|r rows kept Hr _ (r1 & r2 & H1 & H2 & H3)
                   |r rows kept Hr _ (r1 & r2 & H1 & H2 & H3)].
  - exists [], []. repeat split; constructor.
  - apply row_verdict_keep in Hr as (Hp & Ht & Hd).
    exists (r :: r1), (r :: r2). repeat split; now constructor.
  - apply row_verdict_drop in Hr as [Hp|[(Hp & Ht)|(Hp & Ht & Hd)]].
    + exists r1, r2. repeat split; try assumption. now apply verdicts_drop.
    + exists (r :: r1), r2. repeat split; try assumption.
      * now constructor.
      * now apply verdicts_drop.
    + exists (r :: r1), (r :: r2). repeat split.
      * now constructor.
      * now constructor.
      * now apply verdicts_drop.
Qed.

Lemma verdicts_stages_join (rows r1 : list dict) :
  verdicts (row_verdict person None None None) rows r1 ->
  forall r2 out,
    verdicts (row_verdict None doc_type None None) r1 r2 ->
    verdicts (row_verdict None None lo hi) r2 out ->
    verdicts (row_verdict person doc_type lo hi) rows out.
Proof.
  induction 1 as [|r rows kept Hp _ IH|r rows kept Hp _ IH]; intros r2 out H2 H3.
  - inversion H2; subst. inversion H3; subst. constructor.
  - inversion H2 as [|? ? k2 Ht H2'|? ? k2 Ht H2']; subst.
    + inversion H3 as [|? ? k3 Hd H3'|? ? k3 Hd H3']; subst.
      * constructor; [| now apply (IH k2)]. apply row_verdict_keep. auto.
      * apply verdicts_drop; [| now apply (IH k2)]. apply row_verdict_drop. auto 6.
    + apply verdicts_drop; [| now apply (IH r2)]. apply row_verdict_drop. auto.
  - apply verdicts_drop; [| now apply (IH r2)]. apply row_verdict_drop. auto.
Qed.
End FilterStages.

(** X4: the criteria compose: filtering by person, then the result by
    document type, then that result by date range returns a list exactly when
    filtering by all criteria at once does, and the same list. *)
Theorem filter_hits_stagewise `{T : Text}
    (person doc_type : option string) (d_from d_to : option date) (rows out : list dict) :
  filter_hits_locally person doc_type d_from d_to rows = Ok out <->
  exists r1 r2,
    filter_hits_locally person None None None rows = Ok r1 /\
    filter_hits_locally None doc_type None None r1 = Ok r2 /\
    filter_hits_locally None None d_from d_to r2 = Ok out.
Proof.
  rewrite filter_hits_verdicts. split.
  - intros Hall. apply verdicts_stages_split in Hall as (r1 & r2 & H1 & H2 & H3).
    exists r1, r2. now rewrite !filter_hits_verdicts.
  - intros (r1 & r2 & H1 & H2 & H3). rewrite filter_hits_verdicts in H1, H2, H3.
    exact (verdicts_stages_join _ _ _ _ _ _ H1 _ _ H2 H3).
Qed.

Lemma filter_hits_stagewise_witness :
  let rows := [[("DOC_ID", VInt 1); ("PERSON", VStr "Alice"); ("DOC_TYPE", VStr "invoice");
                ("DOC_DATE", VStr "2025-01-15")];
               [("DOC_ID", VInt 2); ("PERSON", VStr "Bob"); ("DOC_TYPE", VInt 7)];
               [("DOC_ID", VInt 3); ("PERSON", VStr "alice"); ("DOC_TYPE", VStr "memo");
                ("DOC_DATE", VStr "2025-01-16")];
               [("DOC_ID", VInt 4); ("PERSON", VStr "ALICE"); ("DOC_TYPE", VStr "Invoice")]] in
  @filter_hits_locally Reference.text (Some "alice") (Some "invoice") (Some (Date 2025 1 1)) None
    rows
  = Ok [[("DOC_ID", VInt 1); ("PERSON", VStr "Alice"); ("DOC_TYPE", VStr "invoice");
         ("DOC_DATE", VStr "2025-01-15")]].
Proof.
  intros rows.
  apply (@filter_hits_stagewise Reference.text
           (Some "alice") (Some "invoice") (Some (Date 2025 1 1)) None rows).
  eexists. eexists. repeat split.
Defined.

Lemma filter_loop_by_date `{T : Text} (lo hi : option date) (rows out : list dict) :
  filter_loop None None lo hi rows out
  = Ok (out ++ List.filter (fun r => negb (date_rejects lo hi r)) rows).
Proof.
  revert out. induction rows as [|r rows IH]; intros out.
  - simpl. now rewrite app_nil_r.
  - rewrite filter_loop_step, row_verdict_date, bind_Ok, IH. simpl.
    destruct (date_rejects lo hi r); simpl; [reflexivity | now rewrite <- app_assoc].
Qed.

(** X5: with no person and no document-type criterion the filter never
    raises, whatever the hits hold: it keeps exactly the rows the date block
    does not reject, in order. *)
Theorem filter_hits_by_date_total `{T : Text} (d_from d_to : option date) (rows : list dict) :
  filter_hits_locally None None d_from d_to rows
  = Ok (List.filter (fun r => negb (date_rejects d_from d_to r)) rows).
Proof. unfold filter_hits_locally. now rewrite filter_loop_by_date. Qed.

Lemma field_differs_raises (crit : option string) `{T : Text} (r : dict) (key : string) (e : exn) :
  field_differs crit r key = Raise e -> exn_kind e = AttributeError.
Proof.
  unfold field_differs. destruct crit as [c|]; [| discriminate].
  destruct (String.eqb c ""); [discriminate |].
  destruct (py_or (dict_get r key) (VStr "")); simpl; try discriminate;
    now intros [= <-].
Qed.

Lemma field_differs_not_text `{T : Text} (c : string) (r : dict) (key : string) :
  String.eqb c "" = false ->
  truthy (dict_get r key) = true -> is_str (dict_get r key) = false ->
  field_differs (Some c) r key = Raise (no_attribute (dict_get r key) "lower").
Proof.
  intros Hc Ht Hs. unfold field_differs, py_or. rewrite Hc, Ht.
  destruct (dict_get r key); try reflexivity. discriminate.
Qed.

Lemma filter_loop_not_text `{T : Text}
    (c : string) (doc_type : option string) (lo hi : option date)
    (r : dict) (rows out : list dict) :
  String.eqb c "" = false ->
  In r rows ->
  truthy (dict_get r "PERSON") = true -> is_str (dict_get r "PERSON") = false ->
  exists e, filter_loop (Some c) doc_type lo hi rows out = Raise e
            /\ exn_kind e = AttributeError.
Proof.
  intros Hc Hin Ht Hs. revert out.
  induction rows as [|r0 rows IH]; intros out; [destruct Hin |].
  rewrite filter_loop_step. unfold row_verdict.
  destruct (field_differs (Some c) r0 "PERSON") as [skip|e] eqn:Hp.
  - destruct Hin as [-> | Hin].
    { rewrite (field_differs_not_text c r "PERSON" Hc Ht Hs) in Hp. discriminate. }
    rewrite bind_Ok. destruct skip; [rewrite bind_Ok; now apply IH |].
    destruct (field_differs doc_type r0 "DOC_TYPE") as [skip|e] eqn:Hty.
    + rewrite bind_Ok. destruct skip; rewrite bind_Ok; now apply IH.
    + exists e. split; [reflexivity | exact (field_differs_raises _ _ _ _ Hty)].
  - exists e. split; [reflexivity | exact (field_differs_raises _ _ _ _ Hp)].
Qed.

(** X6: one malformed hit fails the whole filter: when the person criterion
    is active and some hit, anywhere in the list, has a PERSON that is truthy
    but not a string, [filter_hits_locally] raises an [AttributeError] and
    returns no list. *)
Theorem filter_hits_malformed_person `{T : Text}
    (c : string) (doc_type : option string) (d_from d_to : option date)
    (r : dict) (rows : list dict) :
  String.eqb c "" = false ->
  In r rows ->
  truthy (dict_get r "PERSON") = true -> is_str (dict_get r "PERSON") = false ->
  exists e, filter_hits_locally (Some c) doc_type d_from d_to rows = Raise e
            /\ exn_kind e = AttributeError.
Proof. intros. now apply filter_loop_not_text with (r := r). Qed.

Lemma filter_hits_malformed_person_witness :
  exists e,
    @filter_hits_locally Reference.text (Some "alice") None None None
      [[("PERSON", VStr "Bob")]; [("PERSON", VInt 7)]; [("PERSON", VStr "Alice")]]
    = Raise e
    /\ exn_kind e = AttributeError.
Proof.
  apply (@filter_hits_malformed_person Reference.text "alice" None None None
           [("PERSON", VInt 7)]); try reflexivity.
  right. left. reflexivity.
Defined.

(** ** Dates *)

Lemma substring_prefix (d rest : string) :
  substring 0 (String.length d) (d +:+ rest) = d.
Proof.
  induction d as [|c d IH]; simpl.
  - destruct rest; reflexivity.
  - now rewrite IH.
Qed.

Lemma substring_whole (d : string) : substring 0 (String.length d) d = d.
Proof. induction d as [|c d IH]; simpl; [reflexivity | now rewrite IH]. Qed.

(** X7: only the first ten characters of DOC_DATE count: a value that
    continues after a ten-character prefix (a timestamp after its date) is read
    as that prefix, by [to_date] and so by the date block of the filter. *)
Theorem to_date_ignores_suffix `{T : Text} (d rest : string) :
  String.length d = 10%nat ->
  to_date (VStr (d +:+ rest)) = to_date (VStr d) /\
  forall (lo hi : option date) (r r' : dict),
    dict_get r "DOC_DATE" = VStr (d +:+ rest) ->
    dict_get r' "DOC_DATE" = VStr d ->
    date_rejects lo hi r = date_rejects lo hi r'.
Proof.
  intros Hlen.
  assert (Hdate : to_date (VStr (d +:+ rest)) = to_date (VStr d)).
  { unfold to_date. simpl py_str.
    replace 10%nat with (String.length d) by exact Hlen.
    rewrite substring_prefix.
    rewrite substring_whole.
    destruct d as [|c d]; [discriminate |]. reflexivity. }
  split; [exact Hdate |].
  intros lo hi r r' Hr Hr'. unfold date_rejects. now rewrite Hr, Hr', Hdate.
Qed.

Lemma to_date_ignores_suffix_witness :
  @to_date Reference.text (VStr ("2025-01-15" +:+ "T09:30:00Z"))
  = @to_date Reference.text (VStr "2025-01-15")
  /\ @to_date Reference.text (VStr "2025-01-15T09:30:00Z") = Some (Date 2025 1 15).
Proof.
  split.
  - exact (proj1 (@to_date_ignores_suffix Reference.text "2025-01-15" "T09:30:00Z" eq_refl)).
  - reflexivity.
Defined.

(** ** Normalised hits *)

Lemma read_hit_record (row scores : value) (out : dict) :
  read_hit row scores = Ok out ->
  exists a b c d e f g h,
    out = [("DOC_ID", a); ("FILENAME", b); ("RELATIVE_PATH", c); ("PERSON", d);
           ("DOC_TYPE", e); ("DOC_DATE", f); ("score_sem", g); ("score_text", h)].
Proof.
  unfold read_hit. intros H. do 8 bind_inv H. injection H as <-.
  repeat eexists.
Qed.

Lemma extract_hit_record (hit : value) (out : dict) :
  _extract_hit hit = Ok out ->
  exists a b c d e f g h,
    out = [("DOC_ID", a); ("FILENAME", b); ("RELATIVE_PATH", c); ("PERSON", d);
           ("DOC_TYPE", e); ("DOC_DATE", f); ("score_sem", g); ("score_text", h)].
Proof.
  intros Hout. destruct (is_dict hit) eqn:Hd.
  - apply is_dict_true in Hd as [d ->].
    rewrite extract_hit_sources in Hout. exact (read_hit_record _ _ _ Hout).
  - rewrite (extract_hit_not_dict _ Hd) in Hout. discriminate.
Qed.

(** X8: normalising a normalised hit keeps its six document fields and
    clears its two scores; a record whose scores are already null is a fixed
    point of [_extract_hit]. *)
Theorem extract_hit_renormalised (hit : value) (out : dict) :
  _extract_hit hit = Ok out ->
  _extract_hit (VDict out) = Ok (without_scores out) /\
  (forall k, In k ["DOC_ID"; "FILENAME"; "RELATIVE_PATH"; "PERSON"; "DOC_TYPE"; "DOC_DATE"] ->
             dict_get (without_scores out) k = dict_get out k) /\
  (dict_get out "score_sem" = VNone -> dict_get out "score_text" = VNone ->
   _extract_hit (VDict out) = Ok out).
Proof.
  intros Hout.
  apply extract_hit_record in Hout as (a & b & c & d & e & f & g & h & ->).
  split; [reflexivity | split].
  - intros k Hk. simpl in Hk.
    destruct Hk as [<-|[<-|[<-|[<-|[<-|[<-|[]]]]]]]; reflexivity.
  - intros Hg Hh. cbv in Hg, Hh. subst g h. reflexivity.
Qed.

Lemma extract_hit_renormalised_witness :
  let hit := VDict [("row", VDict [("DOC_ID", VInt 1); ("PERSON", VStr "Bob")]);
                    ("@scores", VDict [("cosine_similarity", VInt 1)])] in
  let out := [("DOC_ID", VInt 1); ("FILENAME", VNone); ("RELATIVE_PATH", VNone);
              ("PERSON", VStr "Bob"); ("DOC_TYPE", VNone); ("DOC_DATE", VNone);
              ("score_sem", VInt 1); ("score_text", VNone)] in
  _extract_hit hit = Ok out /\
  _extract_hit (VDict out) = Ok (without_scores out).
Proof.
  intros hit out. split; [reflexivity |].
  exact (proj1 (extract_hit_renormalised hit out eq_refl)).
Defined.

(** X9: the two element shapes normalise alike: an element wrapped in a
    [row] field gives the same record as the element itself, provided the
    element has no truthy [row], [@scores] or [scores] field of its own. *)
Theorem extract_hit_row_wrapper (r : dict) :
  truthy (dict_get r "row") = false ->
  truthy (dict_get r "@scores") = false ->
  truthy (dict_get r "scores") = false ->
  _extract_hit (VDict [("row", VDict r)]) = _extract_hit (VDict r).
Proof.
  intros Hrow Hat Hsc. rewrite !extract_hit_sources.
  unfold row_source, scores_source. rewrite Hrow, Hat, Hsc.
  change (dict_get [("row", VDict r)] "row") with (VDict r).
  change (dict_get [("row", VDict r)] "@scores") with VNone.
  change (dict_get [("row", VDict r)] "scores") with VNone.
  simpl truthy. destruct r; reflexivity.
Qed.

Lemma extract_hit_row_wrapper_witness :
  let r := [("DOC_ID", VInt 1); ("PERSON", VStr "Bob"); ("scores", VNone)] in
  _extract_hit (VDict [("row", VDict r)]) = _extract_hit (VDict r).
Proof.
  intros r. apply (extract_hit_row_wrapper r); reflexivity.
Defined.

(** ** The search tab *)





Lemma selection_active (sel : option string) :
  active_if_truthy (selection sel) = selection sel.
Proof.
  destruct sel as [s|]; [| reflexivity]. unfold selection.
  destruct (String.eqb s "") eqn:Hs; simpl; [reflexivity |].
  destruct (String.eqb s "(any)"); simpl; [reflexivity | now rewrite Hs].
Qed.

Lemma selection_none (sel : option string) :
  selection sel = None <-> sel = None \/ sel = Some "" \/ sel = Some "(any)".
Proof.
  destruct sel as [s|]; simpl; [| tauto].
  destruct (String.eqb s "") eqn:Hs; simpl.
  - apply String.eqb_eq in Hs. subst s. tauto.
  - destruct (String.eqb s "(any)") eqn:Ha.
    + apply String.eqb_eq in Ha. subst s. tauto.
    + apply String.eqb_neq in Hs, Ha. split; [discriminate |].
      intros [H|[[= H]|[= H]]]; [discriminate | now destruct Hs | now destruct Ha].
Qed.

(** X11: on the search tab a criterion is active exactly when a selection
    was made: the selections "(any)", "" and none all reach the filter as
    [None], so the filter never meets an empty criterion and, on hits of the
    data model, keeps exactly the hits on which every criterion that is not
    [None] passes. *)
Theorem selected_criteria_filter `{T : Text} (L : TextLaws T)
    (person_sel dtype_sel : option string) (d_from d_to : option date) (rows : list dict) :
  forallb typed_hit rows = true ->
  filter_hits_locally (selection person_sel) (selection dtype_sel) d_from d_to rows
  = Ok (List.filter (survives active_if_not_none (selection person_sel) (selection dtype_sel)
                              d_from d_to) rows)
  /\ (selection person_sel = None <->
      person_sel = None \/ person_sel = Some "" \/ person_sel = Some "(any)")
  /\ (selection dtype_sel = None <->
      dtype_sel = None \/ dtype_sel = Some "" \/ dtype_sel = Some "(any)").
Proof.
  intros Hrows. split; [| split; apply selection_none].
  unfold filter_hits_locally. rewrite (filter_loop_spec _ _ _ _ _ _ Hrows).
  unfold survives, active_if_not_none. now rewrite !selection_active.
Qed.

Lemma selected_criteria_filter_witness :
  let rows := [[("DOC_ID", VInt 1); ("PERSON", VStr "Alice"); ("DOC_TYPE", VStr "memo")];
               [("DOC_ID", VInt 2); ("PERSON", VStr "Bob"); ("DOC_TYPE", VStr "memo")]] in
  @filter_hits_locally Reference.text (selection (Some "(any)")) (selection (Some "memo"))
    None None rows
  = Ok rows.
Proof.
  intros rows.
  exact (proj1 (@selected_criteria_filter Reference.text reference_text_laws
                  (Some "(any)") (Some "memo") None None rows eq_refl)).
Defined.

(** ** The other helpers *)

(** X12: [parse_variant_json] never raises, whatever the value and whatever
    the [json] module does with it. *)
Theorem parse_variant_json_never_raises `{Json, Text} (v : value) :
  exists out, parse_variant_json v = Ok out.
Proof.
  destruct v; simpl; eauto; unfold try_except;
    match goal with |- context [match ?r with Ok _ => _ | Raise _ => _ end] => destruct r end;
    eauto.
Qed.

(** X13: [parse_variant_json] gives an object back for [None], for an object
    and for a string that does not decode; in the last case the object holds
    the string itself under "raw". *)
Theorem parse_variant_json_object `{Json, Text} (v : value) :
  (v = VNone -> parse_variant_json v = Ok (VDict [])) /\
  (is_dict v = true -> exists d, parse_variant_json v = Ok (VDict d)) /\
  (forall s e, v = VStr s -> json_loads s = Raise e ->
               parse_variant_json v = Ok (VDict [("raw", VStr s)])).
Proof.
  split; [| split].
  - now intros ->.
  - intros Hd. apply is_dict_true in Hd as [d ->]. simpl. unfold try_except.
    destruct (json_dumps None (VDict d)); simpl; eauto.
  - intros s e -> Hdec. simpl. now rewrite Hdec.
Qed.

Lemma parse_variant_json_object_witness :
  @parse_variant_json Reference.json Reference.text (VStr "<html>502</html>")
  = Ok (VDict [("raw", VStr "<html>502</html>")]).
Proof.
  exact (proj2 (proj2 (@parse_variant_json_object Reference.json Reference.text
                         (VStr "<html>502</html>")))
               "<html>502</html>" _ eq_refl eq_refl).
Defined.

(** X14: [get_presigned_url] never raises.  It returns the first column of
    the first row, or [None] when the statement yields no row, without a
    warning; when the session call fails, or the first row has no column, it
    returns [None] with the warning "Could not create presigned URL for
    '<path>': <error>". *)
Theorem get_presigned_url_outcomes `{RowSession} (path : string) (seconds : Z) :
  exists url warning,
    get_presigned_url path seconds = Ok (url, warning) /\
    (warning = None <->
     exists v, sql_scalar presign_sql [VStr path; VInt seconds] = Ok v /\ url = v) /\
    (forall text, warning = Some text ->
       url = VNone /\
       exists e, sql_scalar presign_sql [VStr path; VInt seconds] = Raise e /\
                 text = "Could not create presigned URL for '" +:+ path +:+ "': "
                        +:+ exn_msg e) /\
    (session_rows presign_sql [VStr path; VInt seconds] = Ok [] ->
     url = VNone /\ warning = None) /\
    (forall c v cols rest,
       session_rows presign_sql [VStr path; VInt seconds] = Ok (((c, v) :: cols) :: rest) ->
       url = v /\ warning = None).
Proof.
  unfold get_presigned_url, try_except.
  destruct (sql_scalar presign_sql [VStr path; VInt seconds]) as [v|e] eqn:Hscalar; simpl.
  - exists v, None. split; [reflexivity |]. split; [| split; [| split]].
    + split; eauto.
    + discriminate.
    + intros Hrows. unfold sql_scalar in Hscalar. rewrite Hrows in Hscalar.
      injection Hscalar as <-. auto.
    + intros c v' cols rest Hrows. unfold sql_scalar in Hscalar. rewrite Hrows in Hscalar.
      injection Hscalar as <-. auto.
  - eexists VNone, (Some _). split; [reflexivity |]. split; [| split; [| split]].
    + split; [discriminate | intros (v & [=] & _)].
    + intros text [= <-]. split; [reflexivity |]. exists e. auto.
    + intros Hrows. unfold sql_scalar in Hscalar. rewrite Hrows in Hscalar. discriminate.
    + intros c v' cols rest Hrows. unfold sql_scalar in Hscalar. rewrite Hrows in Hscalar.
      discriminate.
Qed.

(** X15: the ask button never raises and puts exactly one thing on the
    page: the warning when the question is blank, otherwise what
    [agent_answer] returns for the stripped question. *)
Theorem ask_tab_outcomes `{Json, Session, Strip} (user_q : string) :
  exists shown,
    ask_tab user_q = Ok [shown] /\
    (blank user_q = true -> shown = Warning "Please enter a question.") /\
    (blank user_q = false ->
     exists ans, agent_answer (str_strip user_q) = Ok ans /\ shown = Written ans).
Proof.
  unfold ask_tab. destruct (blank user_q).
  - eexists. split; [reflexivity |]. split; [reflexivity | discriminate].
  - assert (Hans : exists ans, agent_answer (str_strip user_q) = Ok ans).
    { unfold agent_answer, try_except.
      destruct (session_collect agent_sql [VStr "FA_DOCS_AGENT"; VStr (str_strip user_q)] ≫= _);
        eauto. }
    destruct Hans as [ans Hans]. rewrite Hans. eexists. split; [reflexivity |].
    split; [discriminate | eauto].
Qed.

(** ** The reverse scan *)

Lemma last_content_split (before after : list value) (m : value) (c : value) :
  nonempty_content m = Some c ->
  Forall (fun t => nonempty_content t = None) after ->
  last_content (before ++ m :: after) = Some c.
Proof.
  intros Hm Hafter. unfold last_content.
  rewrite omap_app.
  change (omap nonempty_content (m :: after))
    with (match nonempty_content m with
          | Some y => y :: omap nonempty_content after
          | None => omap nonempty_content after
          end).
  rewrite Hm.
  assert (Hnone : omap nonempty_content after = []).
  { induction Hafter as [|t after Ht _ IH]; [reflexivity |].
    change (omap nonempty_content (t :: after))
      with (match nonempty_content t with
            | Some y => y :: omap nonempty_content after
            | None => omap nonempty_content after
            end).
    now rewrite Ht. }
  rewrite Hnone. apply last_snoc.
Qed.

(** X16: the answer is the content of the last turn that has one: when the
    payload, JSON text or already decoded, decodes to an object with no usable
    [message] whose turn sequence holds a turn with non-empty content followed
    only by turns without, [extract_answer] returns that content, whatever the
    earlier turns hold, and so does [agent_answer] on the prompt whose first
    row carries the payload. *)
Theorem extract_answer_last_turn `{Json, Session}
    (prompt : string) (obj : value) (rest : list value)
    (d : dict) (before after : list value) (m c : value) :
  session_collect agent_sql [VStr "FA_DOCS_AGENT"; VStr prompt] = Ok (obj :: rest) ->
  decode obj = Ok (VDict d) ->
  nonempty_content (dict_get d "message") = None ->
  candidates d = VList (before ++ m :: after) ->
  nonempty_content m = Some c ->
  Forall (fun t => nonempty_content t = None) after ->
  extract_answer obj = Ok c /\ agent_answer prompt = Ok c.
Proof.
  intros Hrows Hdec Hmsg Hturns Hm Hafter.
  assert (Hc : extract_answer obj = Ok c).
  { rewrite (extract_answer_decoded obj d Hdec). unfold answer_with.
    now rewrite Hmsg, Hturns, (last_content_split before after m c Hm Hafter). }
  split; [exact Hc | exact (agent_answer_extracted prompt obj rest c Hrows Hc)].
Qed.

Lemma extract_answer_last_turn_witness :
  let reply :=
    Reference.quoted
      "{'output': [{'content': 'draft'}, {'content': 'final'}, {'role': 'tool'}, null]}" in
  @extract_answer Reference.json (VStr reply) = Ok (VStr "final") /\
  @agent_answer Reference.json (Reference.session (Ok [VStr reply])) "Summarise"
  = Ok (VStr "final").
Proof.
  intros reply.
  apply (@extract_answer_last_turn
           Reference.json (Reference.session (Ok [VStr reply]))
           "Summarise" (VStr reply) []
           [("output", VList [VDict [("content", VStr "draft")];
                              VDict [("content", VStr "final")];
                              VDict [("role", VStr "tool")]; VNone])]
           [VDict [("content", VStr "draft")]]
           [VDict [("role", VStr "tool")]; VNone]
           (VDict [("content", VStr "final")]) (VStr "final")); try reflexivity.
  repeat constructor.
Defined.

(** ** Everything [agent_answer] can return *)

(** The text returned by the handler of [agent_answer]. *)
Lemma agent_answer_caught `{Json, Session} (prompt : string) (e : exn) :
  (res ← session_collect agent_sql [VStr "FA_DOCS_AGENT"; VStr prompt];
   match res with
   | [] => Ok (VStr "Agent returned no result.")
   | obj :: _ => extract_answer obj
   end) = Raise e ->
  agent_answer prompt = Ok (VStr ("Agent call failed: " +:+ exn_msg e)).
Proof. intros Hbody. unfold agent_answer. now rewrite Hbody. Qed.

(** X17: the results of [agent_answer] are these and no others: the text
    "Agent call failed: <error>" when the session call, the decoding or the
    final dump raises; "Agent returned no result." when the statement yields
    no row; the content found in the first row's payload; or, when none is
    found, the indented dump of the decoded payload. *)
Theorem agent_answer_outcomes `{Json, Session} (prompt : string) :
  (exists e,
     session_collect agent_sql [VStr "FA_DOCS_AGENT"; VStr prompt] = Raise e /\
     agent_answer prompt = Ok (VStr ("Agent call failed: " +:+ exn_msg e))) \/
  (session_collect agent_sql [VStr "FA_DOCS_AGENT"; VStr prompt] = Ok [] /\
   agent_answer prompt = Ok (VStr "Agent returned no result.")) \/
  (exists obj rest,
     session_collect agent_sql [VStr "FA_DOCS_AGENT"; VStr prompt] = Ok (obj :: rest) /\
     ((exists e, decode obj = Raise e /\
                 agent_answer prompt = Ok (VStr ("Agent call failed: " +:+ exn_msg e))) \/
      (exists data c, decode obj = Ok data /\ find_answer data = Ok (Some c) /\
                      agent_answer prompt = Ok c) \/
      (exists data text, decode obj = Ok data /\ find_answer data = Ok None /\
                         json_dumps (Some 2%nat) data = Ok text /\
                         agent_answer prompt = Ok (VStr text)) \/
      (exists data e, decode obj = Ok data /\ find_answer data = Ok None /\
                      json_dumps (Some 2%nat) data = Raise e /\
                      agent_answer prompt
                      = Ok (VStr ("Agent call failed: " +:+ exn_msg e))))).
Proof.
  destruct (session_collect agent_sql [VStr "FA_DOCS_AGENT"; VStr prompt])
    as [[|obj rest]|e] eqn:Hrows.
  - right. left. split; [reflexivity |]. unfold agent_answer. now rewrite Hrows.
  - right. right. exists obj, rest. split; [reflexivity |].
    rewrite (agent_answer_first_row prompt obj rest Hrows). unfold extract_answer.
    destruct (decode obj) as [data|e] eqn:Hdec.
    + rewrite bind_Ok. destruct (find_answer_total data) as [[c|] Hfound];
        rewrite Hfound, bind_Ok.
      * right. left. exists data, c. auto.
      * destruct (json_dumps (Some 2%nat) data) as [text|e] eqn:Hdump.
        -- right. right. left. exists data, text. auto.
        -- right. right. right. exists data, e. auto.
    + left. exists e. auto.
  - left. exists e. split; [reflexivity |]. apply agent_answer_caught. now rewrite Hrows.
Qed.

(** ** The exceptions of the normaliser *)

Lemma py_get_raises (v : value) (k : string) (e : exn) :
  py_get v k = Raise e -> exn_kind e = AttributeError.
Proof. destruct v; simpl; try discriminate; now intros [= <-]. Qed.

Lemma read_hit_raises (row scores : value) (e : exn) :
  read_hit row scores = Raise e -> exn_kind e = AttributeError.
Proof.
  unfold read_hit.
  destruct row; try (simpl; now intros [= <-]).
  rewrite !py_get_dict, !bind_Ok.
  destruct scores; simpl; intros [= <-]; reflexivity.
Qed.

Lemma extract_hit_raises (hit : value) (e : exn) :
  _extract_hit hit = Raise e -> exn_kind e = AttributeError.
Proof.
  destruct (is_dict hit) eqn:Hd.
  - apply is_dict_true in Hd as [d ->]. rewrite extract_hit_sources. apply read_hit_raises.
  - rewrite (extract_hit_not_dict hit Hd). now intros [= <-].
Qed.

Lemma extract_hits_raises (hs : list value) (e : exn) :
  extract_hits hs = Raise e -> exn_kind e = AttributeError.
Proof.
  induction hs as [|h hs IH]; simpl; [discriminate |].
  destruct (_extract_hit h) as [o|e'] eqn:Hh.
  - rewrite bind_Ok. destruct (extract_hits hs) as [os|e'']; simpl; [discriminate |].
    intros [= <-]. now apply IH.
  - simpl. intros [= <-]. exact (extract_hit_raises h e' Hh).
Qed.

(** X18: a payload of the wrong shape makes the normaliser raise one of two
    exceptions only: the [TypeError] of iterating a [results] value that
    cannot be iterated (a number, [true]), or an [AttributeError] (the
    payload, an element, or a row or scores value is not an object). *)
Theorem search_hits_error_kinds (data : value) (e : exn) :
  search_hits data = Raise e ->
  (exn_kind e = TypeError /\
   exists d r, py_or data (VDict []) = VDict d /\ py_or (dict_get d "results") (VList []) = r /\
               e = not_iterable r) \/
  exn_kind e = AttributeError.
Proof.
  unfold search_hits. intros Hraise.
  destruct (py_get (py_or data (VDict [])) "results") as [found|e'] eqn:Hget.
  2:{ right. simpl in Hraise. injection Hraise as <-. exact (py_get_raises _ _ _ Hget). }
  rewrite bind_Ok in Hraise.
  destruct (py_or data (VDict [])) as [| | | | | |d] eqn:Hdata; try discriminate.
  injection Hget as <-.
  destruct (py_iter (py_or (dict_get d "results") (VList []))) as [hs|e'] eqn:Hiter.
  - right. rewrite bind_Ok in Hraise. exact (extract_hits_raises hs e Hraise).
  - left. simpl in Hraise. injection Hraise as <-.
    destruct (py_or (dict_get d "results") (VList [])) eqn:Hres; try discriminate;
      injection Hiter as <-; (split; [reflexivity | exists d; eexists; eauto]).
Qed.

Lemma search_hits_error_kinds_witness :
  search_hits (VDict [("results", VBool true)])
  = Raise (Exn TypeError "'bool' object is not iterable")
  /\ (exn_kind (not_iterable (VBool true)) = TypeError \/
      exn_kind (not_iterable (VBool true)) = AttributeError).
Proof.
  split; [reflexivity |].
  destruct (search_hits_error_kinds (VDict [("results", VBool true)])
              (not_iterable (VBool true)) eq_refl) as [[Hk _]|Hk]; [left | right]; exact Hk.
Defined.
